(** * Proxy cache: the cache store, the Cache-Control policy and the two handlers

    A shallow embedding of [service/cache/cache.go] (the store and
    [ParseCacheControl]) and of the two handlers registered by [newServer]
    ([GET /proxy] and [DELETE /cache]).

    Conventions of the embedding.
    - A Go [string] is a sequence of bytes: Rocq's [string] (a list of 8-bit
      [ascii]).  A [[]byte] is a [list byte].
    - Go's [int] and [time.Duration] are 64-bit (the service targets 64-bit
      platforms): values are [Z], and the one place where the program can
      leave the range, the multiplication [time.Duration(maxAge) * time.Second],
      wraps as Go's signed arithmetic does ([wrap64]).
    - A [time.Time] is the instant it denotes, in nanoseconds, as a [Z].
    - [map[string][]string] ([http.Header], [url.Values]) and the store's
      [map[string]*Entry] are [gmap]s.  Entries are never mutated in place,
      only replaced, so the pointer [*Entry] is modelled by its value.
    - The store's [sync.RWMutex] makes every map operation atomic; the
      embedding is the sequential semantics of one request at a time.
    - The environment of a request (the clock, the origin servers, the order
      in which Go ranges over a map) is explicit: [Env]. *)

From stdpp Require Import gmap strings list.
From Stdlib Require Import ZArith Ascii Floats.SpecFloat DecimalString.

Local Open Scope Z_scope.

(** ** Bytes of a Go string *)

Definition byteval (c : ascii) : Z := Z.of_N (N_of_ascii c).

(** [utf8.RuneSelf]: bytes below it are the ASCII characters. *)
Definition RuneSelf : Z := 128.

(** What the standard library does with text that is not ASCII is a matter of
    its Unicode tables, which are not part of this repository: the Unicode
    paths of [strings.ToLower] and [strings.TrimSpace] are taken as given. *)
Record Unicode := {
  (** [strings.Map(unicode.ToLower, s)] *)
  mapToLower : string -> string;
  (** [strings.TrimFunc(s, unicode.IsSpace)] *)
  trimFuncSpace : string -> string;
  (** [strings.TrimRightFunc(s, unicode.IsSpace)] *)
  trimRightFuncSpace : string -> string
}.

(** ** Package [strings] *)
Module GoStrings.

Definition isUpper (c : ascii) : bool :=
  (byteval "A" <=? byteval c) && (byteval c <=? byteval "Z").

Definition lowerByte (c : ascii) : ascii :=
  if isUpper c then ascii_of_N (N_of_ascii c + 32) else c.

Fixpoint isASCII (s : string) : bool :=
  match s with
  | EmptyString => true
  | String c s' => (byteval c <? RuneSelf) && isASCII s'
  end.

Fixpoint mapBytes (f : ascii -> ascii) (s : string) : string :=
  match s with
  | EmptyString => EmptyString
  | String c s' => String (f c) (mapBytes f s')
  end.

(** [strings.ToLower]: ASCII-only text is lowered byte by byte, anything
    else goes through the Unicode mapping. *)
Definition ToLower (U : Unicode) (s : string) : string :=
  if isASCII s then mapBytes lowerByte s else mapToLower U s.

(** The table [asciiSpace]: tab, newline, vertical tab, form feed, carriage
    return and space. *)
Definition asciiSpace (c : ascii) : bool :=
  let n := byteval c in
  (n =? 9) || (n =? 10) || (n =? 11) || (n =? 12) || (n =? 13) || (n =? 32).

(** First loop of [TrimSpace]: [(true, s[start:])] when a byte that is not
    ASCII stops the scan, [(false, s[start:])] when it ends at an ASCII byte
    that is no space or at the end of the text. *)
Fixpoint trimStart (s : string) : bool * string :=
  match s with
  | EmptyString => (false, EmptyString)
  | String c s' =>
      if RuneSelf <=? byteval c then (true, s)
      else if asciiSpace c then trimStart s'
      else (false, s)
  end.

(** Second loop of [TrimSpace], from the end: [None] when [stop] comes down
    to [start]; otherwise [s[start:stop]] and whether a byte that is not
    ASCII stopped the scan. *)
Fixpoint trimStop (s : string) : option (bool * string) :=
  match s with
  | EmptyString => None
  | String c s' =>
      match trimStop s' with
      | Some (uni, t) => Some (uni, String c t)
      | None =>
          if RuneSelf <=? byteval c then Some (true, String c EmptyString)
          else if asciiSpace c then None
          else Some (false, String c EmptyString)
      end
  end.

Definition TrimSpace (U : Unicode) (s : string) : string :=
  match trimStart s with
  | (true, rest) => trimFuncSpace U rest
  | (false, rest) =>
      match trimStop rest with
      | None => EmptyString
      | Some (true, t) => trimRightFuncSpace U t
      | Some (false, t) => t
      end
  end.

(** [strings.Split(s, sep)] for a separator of one byte: every piece
    between two separators, empty pieces included; never the empty list. *)
Fixpoint Split (s : string) (sep : ascii) : list string :=
  match s with
  | EmptyString => [EmptyString]
  | String c s' =>
      match Split s' sep with
      | d :: ds =>
          if Ascii.eqb c sep then EmptyString :: d :: ds
          else String c d :: ds
      | [] => [String c EmptyString]
      end
  end.

Definition HasPrefix (s pre : string) : bool := String.prefix pre s.

Definition TrimPrefix (s pre : string) : string :=
  if HasPrefix s pre
  then String.substring (String.length pre)
                        (String.length s - String.length pre) s
  else s.

End GoStrings.

(** ** Package [strconv] *)
Module GoStrconv.

Definition maxInt : Z := 2 ^ 63 - 1.
Definition minInt : Z := - 2 ^ 63.

Definition digit (c : ascii) : option Z :=
  let n := byteval c in
  if (byteval "0" <=? n) && (n <=? byteval "9") then Some (n - byteval "0")
  else None.

Fixpoint digits (s : string) (acc : Z) : option Z :=
  match s with
  | EmptyString => Some acc
  | String c s' =>
      match digit c with
      | Some d => digits s' (acc * 10 + d)
      | None => None
      end
  end.

(** [strconv.Atoi]: an optional sign and at least one decimal digit, the
    value within [int]; [None] stands for a result with [err != nil]
    (syntax or range). *)
Definition Atoi (s : string) : option Z :=
  let '(neg, ds) :=
    match s with
    | String "-" r => (true, r)
    | String "+" r => (false, r)
    | _ => (false, s)
    end in
  match ds with
  | EmptyString => None
  | _ =>
      match digits ds 0 with
      | Some n =>
          let v := if neg then - n else n in
          if (minInt <=? v) && (v <=? maxInt) then Some v else None
      | None => None
      end
  end.

(** [strconv.Itoa]: the decimal text of an [int]. *)
Definition Itoa (n : Z) : string := NilZero.string_of_int (Z.to_int n).

End GoStrconv.

(** ** Package [time] *)
Module GoTime.

(** [time.Second], a [Duration] in nanoseconds. *)
Definition Second : Z := 1000000000.

Definition maxDuration : Z := 2 ^ 63 - 1.
Definition minDuration : Z := - 2 ^ 63.

(** Arithmetic on [int64] wraps around. *)
Definition wrap64 (n : Z) : Z := (n + 2 ^ 63) mod 2 ^ 64 - 2 ^ 63.

(** [t.Add(d)] *)
Definition Add (t d : Z) : Z := t + d.

(** [t.After(u)]: strictly later. *)
Definition After (t u : Z) : bool := u <? t.

(** [t.Sub(u)]: the difference, or the largest (smallest) [Duration] when
    the difference does not fit. *)
Definition Sub (t u : Z) : Z :=
  Z.max minDuration (Z.min maxDuration (t - u)).

(** *** [float64], as IEEE 754 binary64 *)

Definition float64 : Type := spec_float.

(** Conversion of an integer, rounding to nearest even. *)
Definition ofInt (n : Z) : float64 := binary_normalize 53 1024 n 0 false.

(** [d.Seconds()]:
    [sec := d / Second; nsec := d % Second;
     return float64(sec) + float64(nsec)/1e9]. *)
Definition Seconds (d : Z) : float64 :=
  let sec := Z.quot d Second in
  let nsec := Z.rem d Second in
  SFadd 53 1024 (ofInt sec) (SFdiv 53 1024 (ofInt nsec) (ofInt 1000000000)).

(** The conversion [int(f)] of a finite [float64]: the fraction is
    discarded (truncation towards zero). *)
Definition toInt (f : float64) : Z :=
  match f with
  | S754_finite s m e =>
      let v := if 0 <=? e then Z.pos m * 2 ^ e else Z.pos m / 2 ^ (- e) in
      if s then - v else v
  | _ => 0
  end.

End GoTime.

(** ** Package [net/http]: headers and the response writer *)

(** [http.Header] and [url.Values]: [map[string][]string]. *)
Abbreviation Header := (gmap string (list string)).

Module GoHttp.

Definition StatusOK : Z := 200.
Definition StatusNoContent : Z := 204.
Definition StatusBadRequest : Z := 400.
Definition StatusNotFound : Z := 404.
Definition StatusBadGateway : Z := 502.

Definition isLower (c : ascii) : bool :=
  (byteval "a" <=? byteval c) && (byteval c <=? byteval "z").

Definition isDigit (c : ascii) : bool :=
  (byteval "0" <=? byteval c) && (byteval c <=? byteval "9").

(** The bytes of an HTTP token. *)
Definition validHeaderFieldByte (c : ascii) : bool :=
  isLower c || GoStrings.isUpper c || isDigit c
  || existsb (Ascii.eqb c)
       ["!"; "#"; "$"; "%"; "&"; "'"; "*"; "+"; "-"; "."; "^"; "_"; "`";
        "|"; "~"]%char.

Fixpoint allValid (s : string) : bool :=
  match s with
  | EmptyString => true
  | String c s' => validHeaderFieldByte c && allValid s'
  end.

Definition upperByte (c : ascii) : ascii :=
  if isLower c then ascii_of_N (N_of_ascii c - 32) else c.

(** First letter upper case and upper case after each dash, the other
    letters lower case. *)
Fixpoint canonical (upper : bool) (s : string) : string :=
  match s with
  | EmptyString => EmptyString
  | String c s' =>
      let c := if upper then upperByte c else GoStrings.lowerByte c in
      String c (canonical (Ascii.eqb c "-") s')
  end.

(** [textproto.CanonicalMIMEHeaderKey]: a key with a byte that is no token
    byte is returned unchanged. *)
Definition CanonicalMIMEHeaderKey (s : string) : string :=
  if allValid s then canonical true s else s.

(** [h[key]], where a missing key reads as the nil slice. *)
Definition values (h : Header) (key : string) : list string :=
  default [] (h !! key).

(** [h.Add(key, value)] *)
Definition Add (h : Header) (key value : string) : Header :=
  let key := CanonicalMIMEHeaderKey key in
  <[key := values h key ++ [value]]> h.

(** [h.Set(key, value)] *)
Definition Set_ (h : Header) (key value : string) : Header :=
  <[CanonicalMIMEHeaderKey key := [value]]> h.

(** [h.Get(key)]: the first value, or the empty string. *)
Definition Get (h : Header) (key : string) : string :=
  match values h (CanonicalMIMEHeaderKey key) with
  | v :: _ => v
  | [] => EmptyString
  end.

(** [h.Del(key)] *)
Definition Del (h : Header) (key : string) : Header :=
  delete (CanonicalMIMEHeaderKey key) h.

(** [h.Clone()]: a copy that shares nothing with [h]; as a value, [h]. *)
Definition Clone (h : Header) : Header := h.

(** [url.Values.Get(key)]: the first value, or the empty string; the key is
    taken as it is. *)
Definition QueryGet (v : Header) (key : string) : string :=
  match values v key with
  | x :: _ => x
  | [] => EmptyString
  end.

(** What a handler has written to its [http.ResponseWriter]. *)
Record ResponseWriter := {
  header : Header;
  status : option Z;
  body : list Byte.byte
}.

Definition newWriter : ResponseWriter :=
  {| header := ∅; status := None; body := [] |}.

Definition withHeader (w : ResponseWriter) (h : Header) : ResponseWriter :=
  {| header := h; status := status w; body := body w |}.

(** [w.WriteHeader(code)]: the first call fixes the status. *)
Definition WriteHeader (w : ResponseWriter) (code : Z) : ResponseWriter :=
  match status w with
  | Some _ => w
  | None => {| header := header w; status := Some code; body := body w |}
  end.

(** [w.Write(b)]: writes status 200 first when none was written. *)
Definition Write (w : ResponseWriter) (b : list Byte.byte) : ResponseWriter :=
  let w := WriteHeader w StatusOK in
  {| header := header w; status := status w; body := body w ++ b |}.

(** [http.Error(w, error, code)]: a plain-text reply, the message followed
    by a newline. *)
Definition Error (w : ResponseWriter) (error : string) (code : Z)
  : ResponseWriter :=
  let h := Del (header w) "Content-Length" in
  let h := Set_ h "Content-Type" "text/plain; charset=utf-8" in
  let h := Set_ h "X-Content-Type-Options" "nosniff" in
  let w := WriteHeader (withHeader w h) code in
  Write w (String.list_byte_of_string (error +:+ String "010" EmptyString)).

(** The request, as far as the handlers read it: [r.URL.Query()]. *)
Record Request := { Query : Header }.

(** What [http.Get(url)] followed by [io.ReadAll(resp.Body)] can give. *)
Inductive Fetch :=
| GetFailed (err : string)
    (* http.Get returned an error *)
| ReadFailed (code : Z) (hdr : Header) (err : string)
    (* a response arrived, reading its body failed *)
| Fetched (code : Z) (hdr : Header) (payload : list Byte.byte).

End GoHttp.

(** ** The environment of a request and the state of the service *)

(** [Entry]: one cached origin response. *)
Record Entry := {
  Body : list Byte.byte;
  Headers : Header;
  Expiry : Z
}.

(** The environment: the readings [time.Now()] returns, one per call; what
    the origin answers to the n-th [http.Get] of the service; the order in
    which a [range] visits the keys of a header map (unspecified in Go, so any
    enumeration of the map); and the Unicode tables. *)
Record Env := {
  clock : nat -> Z;
  origin : nat -> string -> GoHttp.Fetch;
  rangeOf : Header -> list (string * list string);
  rangeOf_perm : forall h, rangeOf h ≡ₚ map_to_list h;
  unicode : Unicode
}.

(** The state: the store ([c.entries]), how many times the clock was read,
    and the URLs fetched from origins so far (oldest first). *)
Record World := {
  entries : gmap string Entry;
  ticks : nat;
  fetches : list string
}.

Definition withEntries (w : World) (m : gmap string Entry) : World :=
  {| entries := m; ticks := ticks w; fetches := fetches w |}.

(** The state after one more reading of the clock. *)
Definition tick (w : World) : World :=
  {| entries := entries w; ticks := S (ticks w); fetches := fetches w |}.

(** Code that reads and changes the state. *)
Definition M (A : Type) : Type := World -> A * World.

Definition ret {A} (a : A) : M A := fun w => (a, w).

Definition bind {A B} (m : M A) (k : A -> M B) : M B :=
  fun w => let (a, w') := m w in k a w'.

Notation "x <- m ;; k" := (bind m (fun x => k))
  (at level 100, m at next level, right associativity).
Notation "m ;;; k" := (bind m (fun _ => k))
  (at level 100, right associativity).

(** [time.Now()] *)
Definition Now (env : Env) : M Z := fun w => (clock env (ticks w), tick w).

(** [time.Until(t)]: [t.Sub(time.Now())]. *)
Definition Until (env : Env) (t : Z) : M Z :=
  now <- Now env ;; ret (GoTime.Sub t now).

(** [http.Get(url)] with the body read by [io.ReadAll]. *)
Definition httpGet (env : Env) (url : string) : M GoHttp.Fetch := fun w =>
  (origin env (length (fetches w)) url,
   {| entries := entries w; ticks := ticks w; fetches := fetches w ++ [url] |}).

(** ** Package [cache] *)
Module cache.

(** [New()]: the empty store. *)
Definition New : gmap string Entry := ∅.

(** [c.Get(url)]: the clock is read only when the store holds an entry. *)
Definition Get (env : Env) (url : string) : M (option Entry) := fun w =>
  match entries w !! url with
  | None => (None, w)
  | Some entry =>
      (now <- Now env ;;
       if GoTime.After now (Expiry entry)
       then fun w => (None, withEntries w (delete url (entries w)))
       else ret (Some entry)) w
  end.

(** [c.Set(url, entry)] *)
Definition Set_ (url : string) (entry : Entry) : M unit := fun w =>
  (tt, withEntries w (<[url := entry]> (entries w))).

(** [c.Delete(url)] *)
Definition Delete (url : string) : M bool := fun w =>
  match entries w !! url with
  | None => (false, w)
  | Some _ => (true, withEntries w (delete url (entries w)))
  end.

(** First loop of [ParseCacheControl]: [true] when it returns from inside
    the loop (a directive is [no-store]). *)
Fixpoint noStoreLoop (U : Unicode) (directives : list string) : bool :=
  match directives with
  | [] => false
  | d :: rest =>
      let d := GoStrings.TrimSpace U (GoStrings.ToLower U d) in
      if String.eqb d "no-store" then true else noStoreLoop U rest
  end.

(** Second loop: [Some seconds] when it returns from inside the loop. *)
Fixpoint maxAgeLoop (U : Unicode) (directives : list string) : option Z :=
  match directives with
  | [] => None
  | d :: rest =>
      let d := GoStrings.TrimSpace U (GoStrings.ToLower U d) in
      if GoStrings.HasPrefix d "max-age=" then
        let val := GoStrings.TrimPrefix d "max-age=" in
        match GoStrconv.Atoi val with
        | Some seconds =>
            if 0 <? seconds then Some seconds else maxAgeLoop U rest
        | None => maxAgeLoop U rest
        end
      else maxAgeLoop U rest
  end.

(** [ParseCacheControl] returns (max-age seconds, shouldStore). *)
Definition ParseCacheControl (U : Unicode) (header : string) : Z * bool :=
  if String.eqb header "" then (0, false)
  else
    let directives := GoStrings.Split header "," in
    if noStoreLoop U directives then (0, false)
    else
      match maxAgeLoop U directives with
      | Some seconds => (seconds, true)
      | None => (0, false)
      end.

End cache.

(** ** The handlers of [newServer] *)
Module server.

(** [for _, v := range vals { w.Header().Add(k, v) }] *)
Definition addValues (h : Header) (k : string) (vals : list string)
  : Header :=
  foldl (fun h v => GoHttp.Add h k v) h vals.

(** [for k, vals := range src { ... }], the keys visited in the order
    [visit]. *)
Definition addAll (visit : list (string * list string)) (h : Header)
  : Header :=
  foldl (fun h kv => addValues h kv.1 kv.2) h visit.

(** The values [addAll] adds under [key]: those of every visited key
    whose canonical form is [key], in the order of the visit. *)
Definition added (visit : list (string * list string)) (key : string)
  : list string :=
  mjoin (snd <$> filter (fun kv => GoHttp.CanonicalMIMEHeaderKey kv.1 = key)
                         visit).

Definition copyHeaders (env : Env) (src : Header) (w : GoHttp.ResponseWriter)
  : GoHttp.ResponseWriter :=
  GoHttp.withHeader w (addAll (rangeOf env src) (GoHttp.header w)).

Definition setHeader (w : GoHttp.ResponseWriter) (key value : string)
  : GoHttp.ResponseWriter :=
  GoHttp.withHeader w (GoHttp.Set_ (GoHttp.header w) key value).

(** The handler of [GET /proxy]. *)
Definition proxy (env : Env) (r : GoHttp.Request) : M GoHttp.ResponseWriter :=
  let w := GoHttp.newWriter in
  let targetURL := GoHttp.QueryGet (GoHttp.Query r) "url" in
  if String.eqb targetURL "" then
    ret (GoHttp.Error w "Missing url parameter" GoHttp.StatusBadRequest)
  else
    hit <- cache.Get env targetURL ;;
    match hit with
    | Some entry =>
        let w := copyHeaders env (Headers entry) w in
        d <- Until env (Expiry entry) ;;
        let remaining := GoTime.Seconds d in
        let w := setHeader w "X-Proxy-Cache" "HIT" in
        let w := setHeader w "X-Cache-TTL-Remaining"
                   (GoStrconv.Itoa (GoTime.toInt remaining)) in
        let w := GoHttp.WriteHeader w GoHttp.StatusOK in
        ret (GoHttp.Write w (Body entry))
    | None =>
        resp <- httpGet env targetURL ;;
        match resp with
        | GoHttp.GetFailed err =>
            ret (GoHttp.Error w ("Failed to fetch origin: " +:+ err)
                   GoHttp.StatusBadGateway)
        | GoHttp.ReadFailed _ _ _ =>
            ret (GoHttp.Error w "Failed to read origin response"
                   GoHttp.StatusBadGateway)
        | GoHttp.Fetched _ hdr payload =>
            let cc := GoHttp.Get hdr "Cache-Control" in
            let (maxAge, shouldStore) :=
              cache.ParseCacheControl (unicode env) cc in
            (if shouldStore then
               now <- Now env ;;
               cache.Set_ targetURL
                 {| Body := payload;
                    Headers := GoHttp.Clone hdr;
                    Expiry :=
                      GoTime.Add now
                        (GoTime.wrap64 (maxAge * GoTime.Second)) |}
             else ret tt) ;;;
            let w := copyHeaders env hdr w in
            let w := setHeader w "X-Proxy-Cache" "MISS" in
            let w := GoHttp.WriteHeader w GoHttp.StatusOK in
            ret (GoHttp.Write w payload)
        end
    end.

(** The handler of [DELETE /cache]. *)
Definition purge (r : GoHttp.Request) : M GoHttp.ResponseWriter :=
  let w := GoHttp.newWriter in
  let targetURL := GoHttp.QueryGet (GoHttp.Query r) "url" in
  if String.eqb targetURL "" then
    ret (GoHttp.Error w "Missing url parameter" GoHttp.StatusBadRequest)
  else
    existed <- cache.Delete targetURL ;;
    if existed then ret (GoHttp.WriteHeader w GoHttp.StatusNoContent)
    else ret (GoHttp.Error w "Not found" GoHttp.StatusNotFound).

End server.

(** ** The policy as its description states it *)
Module policy.

(** A directive of the header: a piece between commas, lower-cased and
    with the white space around it removed. *)
Definition directives (U : Unicode) (header : string) : list string :=
  (fun d => GoStrings.TrimSpace U (GoStrings.ToLower U d))
    <$> GoStrings.Split header ",".

(** The value of a directive [max-age=N] whose [N] is a decimal integer
    and strictly positive. *)
Definition positiveMaxAge (d : string) : option Z :=
  if GoStrings.HasPrefix d "max-age=" then
    n ← GoStrconv.Atoi (GoStrings.TrimPrefix d "max-age=");
    if decide (0 < n) then Some n else None
  else None.

(** Rules 1 to 4, in order. *)
Definition parse (U : Unicode) (header : string) : Z * bool :=
  if decide (header = "") then (0, false)
  else if decide ("no-store" ∈ directives U header) then (0, false)
  else
    match omap positiveMaxAge (directives U header) with
    | seconds :: _ => (seconds, true)
    | [] => (0, false)
    end.

End policy.

(** ** Operations on the store, for sequences of them *)

Inductive Op :=
| OpGet (url : string)
| OpSet (url : string) (entry : Entry)
| OpDelete (url : string).

(** The operations that write a key: [Set] and [Delete]. *)
Definition writes (url : string) (op : Op) : Prop :=
  match op with
  | OpGet _ => False
  | OpSet u _ | OpDelete u => u = url
  end.

Definition runOp (env : Env) (op : Op) : M unit :=
  match op with
  | OpGet u => cache.Get env u ;;; ret tt
  | OpSet u e => cache.Set_ u e
  | OpDelete u => cache.Delete u ;;; ret tt
  end.

Fixpoint runOps (env : Env) (ops : list Op) : M unit :=
  match ops with
  | [] => ret tt
  | op :: rest => runOp env op ;;; runOps env rest
  end.

(** ** Sample environments, stores and requests *)
Module sample.

(** Tables that leave text that is not ASCII alone; the samples are ASCII. *)
Definition plain : Unicode :=
  {| mapToLower := id; trimFuncSpace := id; trimRightFuncSpace := id |}.

Definition mkEnv (clk : nat -> Z) (org : nat -> string -> GoHttp.Fetch)
  : Env :=
  {| clock := clk; origin := org; rangeOf := map_to_list;
     rangeOf_perm := fun h => reflexivity (map_to_list h);
     unicode := plain |}.

Definition request (u : string) : GoHttp.Request :=
  {| GoHttp.Query := {[ "url" := [u] ]} |}.

Definition noUrl : GoHttp.Request := {| GoHttp.Query := ∅ |}.

Definition fresh : World :=
  {| entries := cache.New; ticks := 0; fetches := [] |}.

Definition unreachable : nat -> string -> GoHttp.Fetch :=
  fun _ _ => GoHttp.GetFailed "connection refused".

Definition page : list Byte.byte := String.list_byte_of_string "hello".

Definition html : Header := {[ "Content-Type" := ["text/html"] ]}.

(** An entry that expires at instant 100. *)
Definition e100 : Entry := {| Body := page; Headers := html; Expiry := 100 |}.

Definition holding (e : Entry) : World :=
  {| entries := {[ "http://a" := e ]}; ticks := 0; fetches := [] |}.

(** A clock that stands at one instant. *)
Definition at_ (t : Z) : Env := mkEnv (fun _ => t) unreachable.

(** An origin that answers 404 with a page. *)
Definition notFound : nat -> string -> GoHttp.Fetch :=
  fun _ _ => GoHttp.Fetched 404 html page.

Definition answering404 : Env := mkEnv (fun _ => 0) notFound.

(** A request whose [url] parameter is present and empty. *)
Definition emptyUrl : GoHttp.Request := request "".

(** An origin whose page may be cached for a year. *)
Definition yearLong : nat -> string -> GoHttp.Fetch :=
  fun _ _ =>
    GoHttp.Fetched 200 {[ "Cache-Control" := ["max-age=31536000"] ]} page.

(** The first reading of the clock is instant 1000; the later ones are one
    second and one nanosecond after it. *)
Definition oneSecondLater : Env :=
  mkEnv (fun n => match n with O => 1000 | _ => 1000 + 1000000001 end)
        yearLong.

(** An origin whose [max-age], in nanoseconds, is beyond [int64]. *)
Definition centuries : nat -> string -> GoHttp.Fetch :=
  fun _ _ =>
    GoHttp.Fetched 200 {[ "Cache-Control" := ["max-age=9223372037"] ]} page.

Definition longLived : Env := mkEnv (fun _ => 1000) centuries.

(** An origin whose page may be cached for five minutes, and a clock that
    reads one second, two seconds, and so on. *)
Definition fiveMinutes : nat -> string -> GoHttp.Fetch :=
  fun _ _ =>
    GoHttp.Fetched 200
      {[ "Cache-Control" := ["public, max-age=300"];
         "Content-Type" := ["text/html"] ]} page.

Definition seconds : Env :=
  mkEnv (fun n => Z.of_nat (S n) * 1000000000) fiveMinutes.


(** A clock that advances by one nanosecond at each reading. *)
Definition counting : Env := mkEnv (fun n => Z.of_nat n) unreachable.

(** Operations that neither set nor delete ["http://a"]. *)
Definition others : list Op :=
  [OpGet "http://a"; OpSet "http://b" e100; OpDelete "http://c";
   OpGet "http://b"].

End sample.

(** ** The middleware and the routes of [newServer] *)

(** The request as the middleware reads it: [r.Header], and the part the
    handlers read. *)
Record Incoming := {
  reqHeader : Header;
  reqURL : GoHttp.Request
}.

Definition StatusUnauthorized : Z := 401.

(** [authMiddleware(key)(next)]: the key is the [X-API-Key] header or, when
    that is empty, the [api_key] query parameter; [next] runs only when it
    equals [key]. *)
Definition authMiddleware (key : string)
    (next : GoHttp.Request -> M GoHttp.ResponseWriter) (r : Incoming)
  : M GoHttp.ResponseWriter :=
  let w := GoHttp.newWriter in
  let k := GoHttp.Get (reqHeader r) "X-API-Key" in
  let k := if String.eqb k ""
           then GoHttp.QueryGet (GoHttp.Query (reqURL r)) "api_key"
           else k in
  if negb (String.eqb k key) then
    ret (GoHttp.Error w "Unauthorized" StatusUnauthorized)
  else next (reqURL r).

(** The two routes [newServer] registers, behind the middleware. *)
Inductive Route := GetProxy | DeleteCache.

Definition newServer (env : Env) (key : string) (route : Route)
  : Incoming -> M GoHttp.ResponseWriter :=
  match route with
  | GetProxy => authMiddleware key (server.proxy env)
  | DeleteCache => authMiddleware key server.purge
  end.

(** Requests to [GET /proxy] served one after the other. *)
Fixpoint serveAll (env : Env) (rs : list GoHttp.Request)
  : M (list GoHttp.ResponseWriter) :=
  match rs with
  | [] => ret []
  | r :: rest =>
      reply <- server.proxy env r ;;
      replies <- serveAll env rest ;;
      ret (reply :: replies)
  end.

(** Whether the handler stores what a fetch gave. *)
Definition stored (env : Env) (f : GoHttp.Fetch) : bool :=
  match f with
  | GoHttp.Fetched _ hdr _ =>
      (cache.ParseCacheControl (unicode env) (GoHttp.Get hdr "Cache-Control")).2
  | _ => false
  end.

(** The entries a sequence of store operations sets. *)
Definition setsOf (ops : list Op) : list (string * Entry) :=
  omap (fun op => match op with OpSet u e => Some (u, e) | _ => None end) ops.

(** ** More sample requests and origins *)
Module scenario.

(** A request carrying [k] in its [X-API-Key] header. *)
Definition withHeaderKey (k u : string) : Incoming :=
  {| reqHeader := {[ "X-Api-Key" := [k] ]}; reqURL := sample.request u |}.

(** A request carrying [k] in its [api_key] parameter. *)
Definition withQueryKey (k u : string) : Incoming :=
  {| reqHeader := ∅;
     reqURL := {| GoHttp.Query := {[ "url" := [u]; "api_key" := [k] ]} |} |}.

(** A request with a key in the header and another in the query. *)
Definition withBothKeys (hk qk u : string) : Incoming :=
  {| reqHeader := {[ "X-Api-Key" := [hk] ]};
     reqURL := {| GoHttp.Query := {[ "url" := [u]; "api_key" := [qk] ]} |} |}.

(** A request with no key at all. *)
Definition keyless (u : string) : Incoming :=
  {| reqHeader := ∅; reqURL := sample.request u |}.

(** An origin that forbids storing. *)
Definition noStore : nat -> string -> GoHttp.Fetch :=
  fun _ _ =>
    GoHttp.Fetched 200 {[ "Cache-Control" := ["no-store, max-age=300"] ]}
      sample.page.

Definition private : Env :=
  sample.mkEnv (fun n => 1000 + Z.of_nat n) noStore.

(** An origin that sends two [Cache-Control] lines. *)
Definition twoLines : nat -> string -> GoHttp.Fetch :=
  fun _ _ =>
    GoHttp.Fetched 200 {[ "Cache-Control" := ["max-age=60"; "no-store"] ]}
      sample.page.

Definition contradictory : Env :=
  sample.mkEnv (fun n => Z.of_nat n) twoLines.

(** A store with an entry of ["http://a"] that expires at 100 and one of
    ["http://b"] that expires at 200. *)
Definition two : World :=
  {| entries := {[ "http://a" := sample.e100;
                   "http://b" := {| Body := []; Headers := ∅; Expiry := 200 |} ]};
     ticks := 0; fetches := [] |}.

End scenario.

(** * Properties *)

(** ** The store *)

Lemma Get_absent env url w :
  entries w !! url = None -> cache.Get env url w = (None, w).
Proof. intros H. unfold cache.Get. now rewrite H. Qed.

Lemma Get_fresh env url w e :
  entries w !! url = Some e -> clock env (ticks w) <= Expiry e ->
  cache.Get env url w = (Some e, tick w).
Proof.
  intros H Ht. unfold cache.Get. rewrite H. cbn.
  unfold GoTime.After. destruct (Z.ltb_spec (Expiry e) (clock env (ticks w))); [lia|].
  reflexivity.
Qed.

Lemma Get_stale env url w e :
  entries w !! url = Some e -> Expiry e < clock env (ticks w) ->
  cache.Get env url w = (None, withEntries (tick w) (delete url (entries w))).
Proof.
  intros H Ht. unfold cache.Get. rewrite H. cbn.
  unfold GoTime.After. destruct (Z.ltb_spec (Expiry e) (clock env (ticks w))); [|lia].
  reflexivity.
Qed.

(** Whatever [Get] answers, it leaves the other keys alone, and the key
    itself is either untouched or gone. *)
Lemma Get_entries env url w :
  entries (cache.Get env url w).2 = entries w
  \/ entries (cache.Get env url w).2 = delete url (entries w).
Proof.
  unfold cache.Get. destruct (entries w !! url) as [e|] eqn:H; [|now left].
  cbn. destruct (GoTime.After _ _); cbn; [now right|now left].
Qed.

Lemma Get_miss_entries env url w :
  (cache.Get env url w).1 = None ->
  entries (cache.Get env url w).2 = delete url (entries w).
Proof.
  unfold cache.Get. destruct (entries w !! url) as [e|] eqn:H.
  - cbn. destruct (GoTime.After _ _); cbn; [done|discriminate].
  - intros _. cbn. symmetry. now apply delete_id.
Qed.

Lemma Get_fetches env url w : fetches (cache.Get env url w).2 = fetches w.
Proof.
  unfold cache.Get. destruct (entries w !! url); [|done].
  cbn. now destruct (GoTime.After _ _).
Qed.

Lemma Get_ticks env url w : (ticks w <= ticks (cache.Get env url w).2)%nat.
Proof.
  unfold cache.Get. destruct (entries w !! url); [|done].
  cbn. destruct (GoTime.After _ _); cbn; lia.
Qed.

Lemma Delete_present url w e :
  entries w !! url = Some e ->
  cache.Delete url w = (true, withEntries w (delete url (entries w))).
Proof. intros H. unfold cache.Delete. now rewrite H. Qed.

Lemma Delete_absent url w :
  entries w !! url = None -> cache.Delete url w = (false, w).
Proof. intros H. unfold cache.Delete. now rewrite H. Qed.

(** C1, as the code has it.  [Get] compares with [After]: an entry is
    evicted at every instant strictly after its expiry, and then stays
    absent whatever the clock says; at the instant of the expiry itself the
    entry is still returned. *)
Theorem get_after_expiry env w url e :
  entries w !! url = Some e ->
  (Expiry e < clock env (ticks w) ->
     let w' := (cache.Get env url w).2 in
     (cache.Get env url w).1 = None
     /\ entries w' = delete url (entries w)
     /\ forall env', cache.Get env' url w' = (None, w'))
  /\ (clock env (ticks w) = Expiry e ->
        cache.Get env url w = (Some e, tick w)).
Proof.
  intros H. split.
  - intros Ht. rewrite (Get_stale env url w e H Ht). cbn.
    split; [done|]. split; [done|].
    intros env'. apply Get_absent. cbn. apply lookup_delete_eq.
  - intros Ht. apply Get_fresh; [done|lia].
Qed.

Lemma get_after_expiry_witness :
  (cache.Get (sample.at_ 101) "http://a" (sample.holding sample.e100)).1 = None
  /\ cache.Get (sample.at_ 100) "http://a" (sample.holding sample.e100)
     = (Some sample.e100, tick (sample.holding sample.e100)).
Proof.
  split.
  - refine (proj1 (proj1 (get_after_expiry (sample.at_ 101) (sample.holding sample.e100)
                     "http://a" sample.e100 _) _)).
    + reflexivity.
    + cbn. lia.
  - refine (proj2 (get_after_expiry (sample.at_ 100) (sample.holding sample.e100)
                     "http://a" sample.e100 _) _).
    + reflexivity.
    + reflexivity.
Defined.

(** C1 as stated fails at the boundary: the store holds an entry that
    expires at instant 100, the clock stands at 100 (so [t >= expiry]), and
    [Get] returns the entry. *)
Lemma get_at_expiry_is_a_hit :
  entries (sample.holding sample.e100) !! "http://a" = Some sample.e100
  /\ Expiry sample.e100 <= clock (sample.at_ 100) (ticks (sample.holding sample.e100))
  /\ (cache.Get (sample.at_ 100) "http://a" (sample.holding sample.e100)).1
     = Some sample.e100.
Proof. split; [reflexivity|]. split; [cbn; lia|]. reflexivity. Qed.

(** ** Sequences of store operations *)

Lemma runOp_ticks env op w : (ticks w <= ticks (runOp env op w).2)%nat.
Proof.
  destruct op as [u|u e|u]; cbn.
  - unfold bind. pose proof (Get_ticks env u w).
    now destruct (cache.Get env u w).
  - lia.
  - unfold bind, cache.Delete. now destruct (entries w !! u).
Qed.

Lemma runOps_ticks env ops : forall w, (ticks w <= ticks (runOps env ops w).2)%nat.
Proof.
  induction ops as [|op rest IH]; intros w; cbn; [lia|].
  unfold bind. pose proof (runOp_ticks env op w) as H1.
  destruct (runOp env op w) as [[] w1]. cbn in H1.
  specialize (IH w1). lia.
Qed.

(** An operation that does not write [url] and runs no later than [t], an
    instant not after the expiry, leaves the entry of [url] in place. *)
Lemma runOp_keeps env url e op w :
  ~ writes url op ->
  entries w !! url = Some e ->
  clock env (ticks w) <= Expiry e ->
  entries (runOp env op w).2 !! url = Some e.
Proof.
  intros Hw He Ht. destruct op as [u|u e'|u]; cbn in *.
  - unfold bind. destruct (decide (u = url)) as [->|Hne].
    + now rewrite (Get_fresh env url w e He Ht).
    + pose proof (Get_entries env u w) as Hg.
      destruct (cache.Get env u w) as [o w1]. cbn in *.
      destruct Hg as [-> | ->]; [done|]. now rewrite lookup_delete_ne.
  - now rewrite lookup_insert_ne.
  - unfold bind, cache.Delete. destruct (entries w !! u); cbn; [|done].
    now rewrite lookup_delete_ne.
Qed.

Lemma runOps_keeps env url e ops :
  (forall i j, (i <= j)%nat -> clock env i <= clock env j) ->
  Forall (fun op => ~ writes url op) ops ->
  forall w,
    entries w !! url = Some e ->
    clock env (ticks (runOps env ops w).2) <= Expiry e ->
    entries (runOps env ops w).2 !! url = Some e.
Proof.
  intros Hmono Hops. induction Hops as [|op rest Hop _ IH]; intros w He Ht.
  - done.
  - cbn in *. unfold bind in *.
    pose proof (runOp_keeps env url e op w Hop He) as Hk.
    pose proof (runOp_ticks env op w) as Ht1.
    destruct (runOp env op w) as [[] w1]. cbn in *.
    pose proof (runOps_ticks env rest w1) as Ht2.
    apply IH; [|done]. apply Hk.
    etrans; [|exact Ht]. apply Hmono. lia.
Qed.

(** C5.  After [Set(url, e)], and whatever operations follow that neither
    set nor delete [url], a [Get(url)] at an instant strictly before the
    expiry of [e] returns [e] itself: body, headers and expiry as they were
    passed to [Set].  (The clock never runs backwards.) *)
Theorem set_get_round_trip env w url e ops :
  (forall i j, (i <= j)%nat -> clock env i <= clock env j) ->
  Forall (fun op => ~ writes url op) ops ->
  let w1 := (cache.Set_ url e w).2 in
  let w2 := (runOps env ops w1).2 in
  clock env (ticks w2) < Expiry e ->
  cache.Get env url w2 = (Some e, tick w2).
Proof.
  intros Hmono Hops w1 w2 Ht.
  apply Get_fresh; [|lia].
  apply runOps_keeps; [done|done| |fold w2; lia].
  cbn. apply lookup_insert_eq.
Qed.

Lemma set_get_round_trip_witness :
  cache.Get sample.counting "http://a"
    (runOps sample.counting sample.others
       (cache.Set_ "http://a" sample.e100 sample.fresh).2).2
  = (Some sample.e100,
     tick (runOps sample.counting sample.others
             (cache.Set_ "http://a" sample.e100 sample.fresh).2).2).
Proof.
  apply (set_get_round_trip sample.counting sample.fresh "http://a"
           sample.e100 sample.others).
  - intros i j Hij. simpl. lia.
  - repeat constructor; simpl; first [tauto | discriminate].
  - vm_compute. reflexivity.
Defined.

(** C6.  [Delete] of a key the store holds returns [true] and removes the
    entry; of a key it does not hold, returns [false] and changes nothing;
    so two deletes in a row of a key that is present return [true], then
    [false]. *)
Theorem delete_present_then_absent w url :
  (forall e, entries w !! url = Some e ->
     cache.Delete url w = (true, withEntries w (delete url (entries w)))
     /\ (cache.Delete url (cache.Delete url w).2).1 = false)
  /\ (entries w !! url = None -> cache.Delete url w = (false, w)).
Proof.
  split.
  - intros e He. rewrite (Delete_present url w e He). split; [done|].
    cbn. rewrite Delete_absent; [done|]. cbn. apply lookup_delete_eq.
  - apply Delete_absent.
Qed.

Lemma delete_present_then_absent_witness :
  (cache.Delete "http://a" (sample.holding sample.e100)).1 = true
  /\ (cache.Delete "http://a"
        (cache.Delete "http://a" (sample.holding sample.e100)).2).1 = false
  /\ cache.Delete "http://a" sample.fresh = (false, sample.fresh).
Proof.
  pose proof (delete_present_then_absent (sample.holding sample.e100) "http://a")
    as [Hp _].
  pose proof (delete_present_then_absent sample.fresh "http://a") as [_ Ha].
  destruct (Hp sample.e100) as [H1 H2]; [reflexivity|].
  split; [now rewrite H1|]. split; [exact H2|]. apply Ha. reflexivity.
Defined.

(** ** Headers *)

Lemma values_empty key : GoHttp.values ∅ key = [].
Proof. unfold GoHttp.values. now rewrite lookup_empty. Qed.

Lemma values_Add h k v key :
  GoHttp.values (GoHttp.Add h k v) key
  = if decide (GoHttp.CanonicalMIMEHeaderKey k = key)
    then GoHttp.values h key ++ [v] else GoHttp.values h key.
Proof.
  unfold GoHttp.Add, GoHttp.values at 1. case_decide as Hk.
  - subst key. now rewrite lookup_insert_eq.
  - now rewrite lookup_insert_ne.
Qed.

Lemma values_Set h k v key :
  GoHttp.values (GoHttp.Set_ h k v) key
  = if decide (GoHttp.CanonicalMIMEHeaderKey k = key)
    then [v] else GoHttp.values h key.
Proof.
  unfold GoHttp.Set_, GoHttp.values at 1. case_decide as Hk.
  - subst key. now rewrite lookup_insert_eq.
  - now rewrite lookup_insert_ne.
Qed.

Lemma addValues_cons h k v vals :
  server.addValues h k (v :: vals) = server.addValues (GoHttp.Add h k v) k vals.
Proof. reflexivity. Qed.

Lemma addAll_cons kv visit h :
  server.addAll (kv :: visit) h
  = server.addAll visit (server.addValues h kv.1 kv.2).
Proof. reflexivity. Qed.

Lemma values_addValues vals : forall h k key,
  GoHttp.values (server.addValues h k vals) key
  = if decide (GoHttp.CanonicalMIMEHeaderKey k = key)
    then GoHttp.values h key ++ vals else GoHttp.values h key.
Proof.
  induction vals as [|v vals IH]; intros h k key.
  - cbn. case_decide; [now rewrite app_nil_r|done].
  - rewrite addValues_cons, IH, values_Add. case_decide; [|done].
    now rewrite <- app_assoc.
Qed.

Lemma values_addAll visit : forall h key,
  GoHttp.values (server.addAll visit h) key
  = GoHttp.values h key ++ server.added visit key.
Proof.
  unfold server.added.
  induction visit as [|[k vals] visit IH]; intros h key.
  - cbn. now rewrite app_nil_r.
  - rewrite addAll_cons, IH, values_addValues, filter_cons. cbn.
    case_decide; cbn; [now rewrite <- app_assoc|done].
Qed.

Lemma elem_of_added visit key v :
  v ∈ server.added visit key
  <-> exists k vals, (k, vals) ∈ visit
        /\ GoHttp.CanonicalMIMEHeaderKey k = key /\ v ∈ vals.
Proof.
  unfold server.added. rewrite list_elem_of_join. split.
  - intros (vals & Hv & Hin). apply list_elem_of_fmap in Hin as ([k vals'] & -> & Hin).
    apply list_elem_of_filter in Hin as [Hk Hin]. cbn in *. eauto.
  - intros (k & vals & Hin & Hk & Hv). exists vals. split; [done|].
    apply list_elem_of_fmap. exists (k, vals). split; [done|].
    apply list_elem_of_filter. done.
Qed.

Lemma elem_of_rangeOf env (h : Header) k vals :
  (k, vals) ∈ rangeOf env h <-> h !! k = Some vals.
Proof. rewrite (rangeOf_perm env h). apply elem_of_map_to_list. Qed.

(** Every value of every header of [src] is among the values the copy
    loop leaves under the canonical form of its key, whatever the order of
    the visit; and nothing else is. *)
Lemma copied_values env (src : Header) key v :
  v ∈ GoHttp.values (server.addAll (rangeOf env src) ∅) key
  <-> exists k vals, src !! k = Some vals
        /\ GoHttp.CanonicalMIMEHeaderKey k = key /\ v ∈ vals.
Proof.
  rewrite values_addAll, values_empty. cbn. rewrite elem_of_added.
  split; intros (k & vals & H & ?); exists k, vals;
    (split; [by apply (elem_of_rangeOf env)|done]).
Qed.

Lemma NoDup_all_equal {A} (l : list A) (a : A) :
  NoDup l -> (forall x, x ∈ l -> x = a) -> l = [] \/ l = [a].
Proof.
  intros Hnd Hall. destruct l as [|x [|y l]]; [now left|right|exfalso].
  - f_equal. apply Hall. left.
  - assert (x = a) as -> by (apply Hall; left).
    assert (y = a) as -> by (apply Hall; right; left).
    apply NoDup_cons in Hnd as [Hnd _]. apply Hnd. left.
Qed.

(** When the keys of [src] are in canonical form, as the keys of a response
    read by [net/http] are, the copy is exact under every key, whatever the
    order of the visit. *)
Lemma copied_exact env (src : Header) :
  (forall k, is_Some (src !! k) -> GoHttp.CanonicalMIMEHeaderKey k = k) ->
  forall key,
    GoHttp.values (server.addAll (rangeOf env src) ∅) key = GoHttp.values src key.
Proof.
  intros Hcanon key. rewrite values_addAll, values_empty. cbn.
  unfold server.added.
  set (P := fun kv : string * list string => GoHttp.CanonicalMIMEHeaderKey kv.1 = key).
  assert (NoDup (filter P (rangeOf env src))) as Hnd.
  { apply NoDup_filter. rewrite (rangeOf_perm env src). apply NoDup_map_to_list. }
  assert (forall kv, kv ∈ filter P (rangeOf env src)
                     <-> kv.1 = key /\ src !! kv.1 = Some kv.2) as Hin.
  { intros [k vals]. rewrite list_elem_of_filter, elem_of_rangeOf. unfold P. cbn.
    split; intros [H1 H2]; (split; [|done]).
    - now rewrite <- H1, Hcanon.
    - now rewrite Hcanon. }
  unfold GoHttp.values. destruct (src !! key) as [vals|] eqn:Hk; cbn.
  - destruct (NoDup_all_equal _ (key, vals) Hnd) as [Hl | Hl].
    + intros [k vs] [Hk1 Hk2]%Hin. cbn in *. subst k. congruence.
    + assert ((key, vals) ∈ filter P (rangeOf env src)) as Hm by now apply Hin.
      rewrite Hl in Hm. now apply elem_of_nil in Hm.
    + rewrite Hl. cbn. apply app_nil_r.
  - destruct (filter P (rangeOf env src)) as [|[k vs] l] eqn:Hl; [done|].
    assert ((k, vs) ∈ (k, vs) :: l) as Hm by left.
    apply Hin in Hm as [Hk1 Hk2]. cbn in *. subst k. congruence.
Qed.

(** ** The handlers, branch by branch *)

Lemma Error_status w msg code :
  GoHttp.status w = None -> GoHttp.status (GoHttp.Error w msg code) = Some code.
Proof. intros H. unfold GoHttp.Error, GoHttp.Write, GoHttp.WriteHeader. cbn. now rewrite H. Qed.

Lemma proxy_no_url env r w :
  GoHttp.QueryGet (GoHttp.Query r) "url" = "" ->
  server.proxy env r w
  = (GoHttp.Error GoHttp.newWriter "Missing url parameter" GoHttp.StatusBadRequest, w).
Proof. intros H. unfold server.proxy. now rewrite H. Qed.

Lemma purge_no_url r w :
  GoHttp.QueryGet (GoHttp.Query r) "url" = "" ->
  server.purge r w
  = (GoHttp.Error GoHttp.newWriter "Missing url parameter" GoHttp.StatusBadRequest, w).
Proof. intros H. unfold server.purge. now rewrite H. Qed.

(** The state after a fetch of [url]. *)
Lemma httpGet_run env url w :
  httpGet env url w
  = (origin env (length (fetches w)) url,
     {| entries := entries w; ticks := ticks w; fetches := fetches w ++ [url] |}).
Proof. reflexivity. Qed.

Lemma proxy_hit env r w url e :
  GoHttp.QueryGet (GoHttp.Query r) "url" = url -> url <> "" ->
  entries w !! url = Some e -> clock env (ticks w) <= Expiry e ->
  server.proxy env r w
  = ({| GoHttp.header :=
          GoHttp.Set_
            (GoHttp.Set_ (server.addAll (rangeOf env (Headers e)) ∅)
               "X-Proxy-Cache" "HIT")
            "X-Cache-TTL-Remaining"
            (GoStrconv.Itoa
               (GoTime.toInt
                  (GoTime.Seconds
                     (GoTime.Sub (Expiry e) (clock env (S (ticks w)))))));
        GoHttp.status := Some GoHttp.StatusOK;
        GoHttp.body := Body e |},
     tick (tick w)).
Proof.
  intros Hu Hne He Ht. unfold server.proxy. rewrite Hu.
  apply String.eqb_neq in Hne. rewrite Hne.
  unfold bind at 1. rewrite (Get_fresh env url w e He Ht).
  reflexivity.
Qed.

Lemma proxy_miss env r w url :
  GoHttp.QueryGet (GoHttp.Query r) "url" = url -> url <> "" ->
  (cache.Get env url w).1 = None ->
  let w1 := (cache.Get env url w).2 in
  let w2 := {| entries := entries w1; ticks := ticks w1;
               fetches := fetches w ++ [url] |} in
  server.proxy env r w
  = match origin env (length (fetches w)) url with
    | GoHttp.GetFailed err =>
        (GoHttp.Error GoHttp.newWriter ("Failed to fetch origin: " +:+ err)
           GoHttp.StatusBadGateway, w2)
    | GoHttp.ReadFailed _ _ _ =>
        (GoHttp.Error GoHttp.newWriter "Failed to read origin response"
           GoHttp.StatusBadGateway, w2)
    | GoHttp.Fetched _ hdr payload =>
        ({| GoHttp.header :=
              GoHttp.Set_ (server.addAll (rangeOf env hdr) ∅)
                "X-Proxy-Cache" "MISS";
            GoHttp.status := Some GoHttp.StatusOK;
            GoHttp.body := payload |},
         let p := cache.ParseCacheControl (unicode env)
                    (GoHttp.Get hdr "Cache-Control") in
         if p.2 then
           withEntries (tick w2)
             (<[url := {| Body := payload; Headers := hdr;
                          Expiry := clock env (ticks w1)
                                    + GoTime.wrap64 (p.1 * GoTime.Second) |}]>
                (entries w1))
         else w2)
    end.
Proof.
  intros Hu Hne Hmiss w1 w2. unfold server.proxy. rewrite Hu.
  apply String.eqb_neq in Hne. rewrite Hne.
  unfold bind at 1.
  pose proof (Get_fetches env url w) as Hf. fold w1 in Hf.
  subst w2. rewrite <- Hf. clear Hf. subst w1.
  destruct (cache.Get env url w) as [o w1]. cbn in Hmiss. subst o. cbn [snd].
  unfold bind at 1. rewrite httpGet_run.
  destruct (origin env (length (fetches w1)) url) as [err|c h err|c hdr payload];
    [reflexivity|reflexivity|].
  destruct (cache.ParseCacheControl (unicode env) (GoHttp.Get hdr "Cache-Control"))
    as [maxAge [|]]; reflexivity.
Qed.

(** ** The claims about the handlers *)

Lemma QueryGet_empty (q : Header) key :
  q !! key = None \/ q !! key = Some []
  \/ (exists rest, q !! key = Some (EmptyString :: rest)) ->
  GoHttp.QueryGet q key = "".
Proof.
  unfold GoHttp.QueryGet, GoHttp.values.
  intros [-> | [-> | [rest ->]]]; reflexivity.
Qed.

(** C9.  A request without a [url] parameter, or with an empty one, gets
    status 400 from both handlers; the state is returned as it was (no
    fetch recorded, the store and the clock untouched) and the reply is the
    same whatever the store holds. *)
Theorem missing_url_is_bad_request env r w :
  GoHttp.Query r !! "url" = None \/ GoHttp.Query r !! "url" = Some []
  \/ (exists rest, GoHttp.Query r !! "url" = Some (EmptyString :: rest)) ->
  let bad := GoHttp.Error GoHttp.newWriter "Missing url parameter"
               GoHttp.StatusBadRequest in
  server.proxy env r w = (bad, w)
  /\ server.purge r w = (bad, w)
  /\ GoHttp.status bad = Some 400.
Proof.
  intros H%QueryGet_empty bad.
  split; [now apply proxy_no_url|]. split; [now apply purge_no_url|reflexivity].
Qed.

Lemma missing_url_is_bad_request_witness :
  GoHttp.status (server.proxy sample.counting sample.noUrl
                   (sample.holding sample.e100)).1 = Some 400
  /\ (server.proxy sample.counting sample.noUrl (sample.holding sample.e100)).2
     = sample.holding sample.e100
  /\ GoHttp.status (server.purge sample.emptyUrl (sample.holding sample.e100)).1
     = Some 400
  /\ (server.purge sample.emptyUrl (sample.holding sample.e100)).2
     = sample.holding sample.e100.
Proof.
  destruct (missing_url_is_bad_request sample.counting sample.noUrl
              (sample.holding sample.e100)) as (H1 & _ & H3).
  { left. reflexivity. }
  destruct (missing_url_is_bad_request sample.counting sample.emptyUrl
              (sample.holding sample.e100)) as (_ & H2 & _).
  { right. right. exists []. reflexivity. }
  rewrite H1, H2. simpl fst. simpl snd. rewrite H3. repeat split.
Defined.

(** C4, as the code has it.  When the lookup misses and the fetch fails
    (the request itself, or the reading of the body), the reply is status
    502 and [Set] is not called.  The store is then what the lookup left: the
    store before the request without the entry of the requested URL, which
    the lookup has evicted if it was there and expired.  Every other key is
    as before, and a store that held nothing for the URL is unchanged. *)
Theorem failed_fetch_stores_nothing env r w url :
  GoHttp.QueryGet (GoHttp.Query r) "url" = url -> url <> "" ->
  (cache.Get env url w).1 = None ->
  (exists err, origin env (length (fetches w)) url = GoHttp.GetFailed err)
  \/ (exists code hdr err,
        origin env (length (fetches w)) url = GoHttp.ReadFailed code hdr err) ->
  let res := server.proxy env r w in
  GoHttp.status res.1 = Some 502
  /\ entries res.2 = delete url (entries w)
  /\ (forall u, u <> url -> entries res.2 !! u = entries w !! u)
  /\ (entries w !! url = None -> entries res.2 = entries w).
Proof.
  intros Hu Hne Hmiss Hfail res. subst res.
  rewrite (proxy_miss env r w url Hu Hne Hmiss).
  pose proof (Get_miss_entries env url w Hmiss) as He.
  assert (forall msg, (GoHttp.status (GoHttp.Error GoHttp.newWriter msg
                         GoHttp.StatusBadGateway) = Some 502)) as Hs by done.
  destruct Hfail as [[err ->] | (code & hdr & err & ->)]; cbn [fst snd entries];
    rewrite He, Hs; (split; [done|]); (split; [done|]);
    (split; [intros u Hneq; now apply lookup_delete_ne|]);
    intros Hnone; now apply delete_id.
Qed.

Lemma failed_fetch_stores_nothing_witness :
  let res := server.proxy (sample.at_ 101) (sample.request "http://a")
               (sample.holding sample.e100) in
  GoHttp.status res.1 = Some 502
  /\ entries res.2 = delete "http://a" (entries (sample.holding sample.e100))
  /\ (forall u, u <> "http://a" ->
        entries res.2 !! u = entries (sample.holding sample.e100) !! u)
  /\ (entries (sample.holding sample.e100) !! "http://a" = None ->
      entries res.2 = entries (sample.holding sample.e100)).
Proof.
  apply (failed_fetch_stores_nothing (sample.at_ 101) (sample.request "http://a")
           (sample.holding sample.e100) "http://a").
  - reflexivity.
  - discriminate.
  - reflexivity.
  - left. exists "connection refused". reflexivity.
Defined.

(** C4 as stated fails when the miss is the miss of an expired entry: the
    store holds an entry of the URL that expired at 100, the clock stands at
    101, the origin cannot be reached.  The reply is 502, and the store no
    longer holds the entry it held before the request. *)
Lemma failed_fetch_evicts_stale_entry :
  entries (sample.holding sample.e100) !! "http://a" = Some sample.e100
  /\ origin (sample.at_ 101) 0 "http://a" = GoHttp.GetFailed "connection refused"
  /\ GoHttp.status
       (server.proxy (sample.at_ 101) (sample.request "http://a")
          (sample.holding sample.e100)).1 = Some 502
  /\ entries
       (server.proxy (sample.at_ 101) (sample.request "http://a")
          (sample.holding sample.e100)).2 !! "http://a" = None.
Proof. repeat split. Qed.

(** C2, as the code has it.  On a miss whose fetch succeeds the reply has
    status 200, whatever status the origin answered with; its body is the
    origin's body; its headers are the origin's, added value by value, and
    then [X-Proxy-Cache: MISS].  Every value of every origin header is in
    the reply under the canonical form of its name ([X-Proxy-Cache] apart,
    which is overwritten), and the reply has no other header: in particular
    no [X-Cache-TTL-Remaining] of the handler's own. *)
Theorem miss_reply env r w url code hdr payload :
  GoHttp.QueryGet (GoHttp.Query r) "url" = url -> url <> "" ->
  (cache.Get env url w).1 = None ->
  origin env (length (fetches w)) url = GoHttp.Fetched code hdr payload ->
  let reply := (server.proxy env r w).1 in
  GoHttp.status reply = Some 200
  /\ GoHttp.body reply = payload
  /\ GoHttp.header reply
     = GoHttp.Set_ (server.addAll (rangeOf env hdr) ∅) "X-Proxy-Cache" "MISS"
  /\ GoHttp.Get (GoHttp.header reply) "X-Proxy-Cache" = "MISS"
  /\ (forall k vals v,
        hdr !! k = Some vals -> v ∈ vals ->
        GoHttp.CanonicalMIMEHeaderKey k <> "X-Proxy-Cache" ->
        v ∈ GoHttp.values (GoHttp.header reply) (GoHttp.CanonicalMIMEHeaderKey k))
  /\ (forall key v,
        key <> "X-Proxy-Cache" -> v ∈ GoHttp.values (GoHttp.header reply) key ->
        exists k vals, hdr !! k = Some vals
          /\ GoHttp.CanonicalMIMEHeaderKey k = key /\ v ∈ vals).
Proof.
  intros Hu Hne Hmiss Horigin reply. subst reply.
  rewrite (proxy_miss env r w url Hu Hne Hmiss), Horigin. cbn [fst].
  cbn [GoHttp.status GoHttp.body GoHttp.header].
  split; [done|]. split; [done|]. split; [done|]. split.
  { unfold GoHttp.Get. rewrite values_Set. now rewrite decide_True. }
  split.
  - intros k vals v Hk Hv Hother. rewrite values_Set.
    change (GoHttp.CanonicalMIMEHeaderKey "X-Proxy-Cache") with "X-Proxy-Cache".
    rewrite decide_False by congruence.
    apply copied_values. eauto.
  - intros key v Hother Hv. rewrite values_Set in Hv.
    change (GoHttp.CanonicalMIMEHeaderKey "X-Proxy-Cache") with "X-Proxy-Cache" in Hv.
    rewrite decide_False in Hv by congruence.
    now apply copied_values in Hv.
Qed.

Lemma miss_reply_witness :
  GoHttp.status (server.proxy sample.answering404 (sample.request "http://a")
                   sample.fresh).1 = Some 200
  /\ GoHttp.body (server.proxy sample.answering404 (sample.request "http://a")
                    sample.fresh).1 = sample.page.
Proof.
  destruct (miss_reply sample.answering404 (sample.request "http://a")
              sample.fresh "http://a" 404 sample.html sample.page)
    as (H1 & H2 & _).
  - reflexivity.
  - discriminate.
  - reflexivity.
  - reflexivity.
  - split; [exact H1|exact H2].
Defined.

(** C2 as stated fails on the status: the origin answers 404, the lookup
    misses, and the reply of the proxy has status 200. *)
Lemma miss_reply_status_is_200 :
  origin sample.answering404 0 "http://a"
  = GoHttp.Fetched 404 sample.html sample.page
  /\ (cache.Get sample.answering404 "http://a" sample.fresh).1 = None
  /\ GoHttp.status (server.proxy sample.answering404 (sample.request "http://a")
                      sample.fresh).1 = Some 200.
Proof. repeat split. Qed.

(** ** The Cache-Control policy *)

Lemma noStoreLoop_spec U ds :
  cache.noStoreLoop U ds
  = bool_decide ("no-store" ∈
      (fun d => GoStrings.TrimSpace U (GoStrings.ToLower U d)) <$> ds).
Proof.
  induction ds as [|d ds IH]; cbn.
  - symmetry. apply bool_decide_eq_false. apply not_elem_of_nil.
  - destruct (String.eqb_spec (GoStrings.TrimSpace U (GoStrings.ToLower U d)) "no-store")
      as [Heq | Hne].
    + symmetry. apply bool_decide_eq_true. rewrite Heq. left.
    + rewrite IH. apply bool_decide_ext. rewrite elem_of_cons.
      split; [now right|]. intros [Heq | Hin]; [congruence|done].
Qed.

Lemma maxAgeLoop_spec U ds :
  cache.maxAgeLoop U ds
  = head (omap policy.positiveMaxAge
            ((fun d => GoStrings.TrimSpace U (GoStrings.ToLower U d)) <$> ds)).
Proof.
  induction ds as [|d ds IH]; cbn; [done|].
  unfold policy.positiveMaxAge at 1.
  destruct (GoStrings.HasPrefix _ "max-age="); [|exact IH].
  destruct (GoStrconv.Atoi _) as [n|]; cbn; [|exact IH].
  destruct (Z.ltb_spec 0 n).
  - now rewrite decide_True.
  - rewrite decide_False by lia. exact IH.
Qed.

(** C3.  [ParseCacheControl] is the function the four rules describe, for
    every header and whatever the Unicode tables; and the seven vectors
    hold. *)
Theorem ParseCacheControl_refines_policy U :
  (forall header, cache.ParseCacheControl U header = policy.parse U header)
  /\ cache.ParseCacheControl U "" = (0, false)
  /\ cache.ParseCacheControl U "no-store" = (0, false)
  /\ cache.ParseCacheControl U "max-age=300" = (300, true)
  /\ cache.ParseCacheControl U "no-store, max-age=300" = (0, false)
  /\ cache.ParseCacheControl U "max-age=0" = (0, false)
  /\ cache.ParseCacheControl U "max-age=-5" = (0, false)
  /\ cache.ParseCacheControl U "public, max-age=120" = (120, true).
Proof.
  split; [|repeat split].
  intros header. unfold cache.ParseCacheControl, policy.parse, policy.directives.
  destruct (String.eqb_spec header "") as [-> | Hne].
  - now rewrite decide_True.
  - rewrite decide_False by done.
    rewrite noStoreLoop_spec, maxAgeLoop_spec.
    case_bool_decide as Hns.
    + now rewrite decide_True.
    + rewrite decide_False by done.
      now destruct (omap _ _).
Qed.
(** *** Lower-casing and trimming commute on ASCII text

    The policy lower-cases a directive and then trims it.  For a header of
    ASCII bytes the other order gives the same directive. *)

Lemma lowerByte_ascii c :
  (byteval c <? RuneSelf) = true ->
  (byteval (GoStrings.lowerByte c) <? RuneSelf) = true
  /\ (RuneSelf <=? byteval (GoStrings.lowerByte c)) = false
  /\ (RuneSelf <=? byteval c) = false
  /\ GoStrings.asciiSpace (GoStrings.lowerByte c) = GoStrings.asciiSpace c.
Proof.
  destruct c as [[] [] [] [] [] [] [] []]; vm_compute; intros H;
    first [discriminate H | repeat split].
Qed.

Lemma isASCII_lower s :
  GoStrings.isASCII s = true ->
  GoStrings.isASCII (GoStrings.mapBytes GoStrings.lowerByte s) = true.
Proof.
  induction s as [|c s IH]; [done|]. cbn.
  intros [Hc Hs]%andb_prop. apply lowerByte_ascii in Hc as (-> & _).
  now apply IH.
Qed.

Lemma trimStart_lower s :
  GoStrings.isASCII s = true ->
  GoStrings.trimStart (GoStrings.mapBytes GoStrings.lowerByte s)
  = (false, GoStrings.mapBytes GoStrings.lowerByte (GoStrings.trimStart s).2)
  /\ (GoStrings.trimStart s).1 = false
  /\ GoStrings.isASCII (GoStrings.trimStart s).2 = true.
Proof.
  induction s as [|c s IH]; [done|].
  intros Hcs. pose proof Hcs as [Hc Hs]%andb_prop.
  apply lowerByte_ascii in Hc as (_ & Hl & Hc' & Hsp).
  cbn [GoStrings.trimStart GoStrings.mapBytes]. rewrite Hl, Hc', Hsp.
  destruct (GoStrings.asciiSpace c); [now apply IH|]. done.
Qed.

Lemma trimStop_lower s :
  GoStrings.isASCII s = true ->
  match GoStrings.trimStop s with
  | None => GoStrings.trimStop (GoStrings.mapBytes GoStrings.lowerByte s) = None
  | Some (uni, t) =>
      uni = false /\ GoStrings.isASCII t = true
      /\ GoStrings.trimStop (GoStrings.mapBytes GoStrings.lowerByte s)
         = Some (false, GoStrings.mapBytes GoStrings.lowerByte t)
  end.
Proof.
  induction s as [|c s IH]; [done|].
  intros [Hc Hs]%andb_prop. specialize (IH Hs).
  pose proof Hc as (_ & Hl & Hc' & Hsp)%lowerByte_ascii.
  cbn [GoStrings.trimStop GoStrings.mapBytes].
  destruct (GoStrings.trimStop s) as [[uni t]|].
  - destruct IH as (-> & Ht & ->). cbn. now rewrite Hc, Ht.
  - rewrite IH, Hl, Hc', Hsp. destruct (GoStrings.asciiSpace c); [done|].
    cbn. now rewrite Hc.
Qed.

Lemma lower_then_trim_is_trim_then_lower U d :
  GoStrings.isASCII d = true ->
  GoStrings.TrimSpace U (GoStrings.ToLower U d)
  = GoStrings.ToLower U (GoStrings.TrimSpace U d).
Proof.
  intros Hd. unfold GoStrings.ToLower at 1. rewrite Hd.
  unfold GoStrings.TrimSpace.
  destruct (trimStart_lower d Hd) as (-> & H1 & H2).
  destruct (GoStrings.trimStart d) as [uni rest]. cbn in H1, H2. subst uni.
  cbn [snd]. pose proof (trimStop_lower rest H2) as H.
  destruct (GoStrings.trimStop rest) as [[uni t]|].
  - destruct H as (-> & Ht & ->). unfold GoStrings.ToLower. now rewrite Ht.
  - now rewrite H.
Qed.

(** ** Purging *)

Lemma purge_run r w url :
  GoHttp.QueryGet (GoHttp.Query r) "url" = url -> url <> "" ->
  server.purge r w
  = match entries w !! url with
    | Some _ =>
        ({| GoHttp.header := ∅; GoHttp.status := Some GoHttp.StatusNoContent;
            GoHttp.body := [] |},
         withEntries w (delete url (entries w)))
    | None => (GoHttp.Error GoHttp.newWriter "Not found" GoHttp.StatusNotFound, w)
    end.
Proof.
  intros Hu Hne. unfold server.purge. rewrite Hu.
  apply String.eqb_neq in Hne. rewrite Hne.
  unfold bind, cache.Delete. now destruct (entries w !! url).
Qed.

(** C10.  [Delete] does not look at the expiry.  For an entry that is
    stored and already expired, [Delete] returns [true] and removes it, and
    the purge handler answers 204.  Neither [Delete] nor [Set] on another key
    removes the expired entry; [Get] on its key does. *)
Theorem purge_of_expired_entry env r w url e :
  GoHttp.QueryGet (GoHttp.Query r) "url" = url -> url <> "" ->
  entries w !! url = Some e ->
  Expiry e < clock env (ticks w) ->
  cache.Delete url w = (true, withEntries w (delete url (entries w)))
  /\ GoHttp.status (server.purge r w).1 = Some 204
  /\ entries (server.purge r w).2 = delete url (entries w)
  /\ (forall u e', u <> url ->
        entries (cache.Delete u w).2 !! url = Some e
        /\ entries (cache.Set_ u e' w).2 !! url = Some e)
  /\ entries (cache.Get env url w).2 !! url = None.
Proof.
  intros Hu Hne He Hexp.
  split; [now apply (Delete_present url w e)|].
  rewrite (purge_run r w url Hu Hne), He. cbn [fst snd].
  split; [done|]. split; [done|]. split.
  - intros u e' Hneq. split.
    + unfold cache.Delete. destruct (entries w !! u); cbn; [|done].
      now rewrite lookup_delete_ne.
    + cbn. now rewrite lookup_insert_ne.
  - rewrite (Get_stale env url w e He Hexp). cbn. apply lookup_delete_eq.
Qed.

Lemma purge_of_expired_entry_witness :
  cache.Delete "http://a" (sample.holding sample.e100)
  = (true, withEntries (sample.holding sample.e100)
             (delete "http://a" (entries (sample.holding sample.e100))))
  /\ GoHttp.status (server.purge (sample.request "http://a")
                      (sample.holding sample.e100)).1 = Some 204.
Proof.
  destruct (purge_of_expired_entry (sample.at_ 5000) (sample.request "http://a")
              (sample.holding sample.e100) "http://a" sample.e100)
    as (H1 & H2 & _).
  - reflexivity.
  - discriminate.
  - reflexivity.
  - simpl. lia.
  - split; [exact H1|exact H2].
Defined.

(** ** Storing on a miss *)

Lemma maxAgeLoop_range U ds n :
  cache.maxAgeLoop U ds = Some n -> 0 < n <= GoStrconv.maxInt.
Proof.
  induction ds as [|d ds IH]; cbn; [discriminate|].
  destruct (GoStrings.HasPrefix _ "max-age="); [|exact IH].
  destruct (GoStrconv.Atoi _) as [m|] eqn:Hm; [|exact IH].
  destruct (Z.ltb_spec 0 m); [|exact IH].
  intros [= ->]. split; [done|].
  unfold GoStrconv.Atoi in Hm.
  destruct (match _ with String "-" r => _ | _ => _ end) as [neg s].
  destruct s; [discriminate|].
  destruct (GoStrconv.digits _ 0) as [k|]; [|discriminate].
  destruct (Z.leb_spec GoStrconv.minInt (if neg then - k else k)); [|discriminate].
  destruct (Z.leb_spec (if neg then - k else k) GoStrconv.maxInt); [|discriminate].
  cbn in Hm. now injection Hm as <-.
Qed.

(** What the policy marks storable has a positive [max-age] within [int]. *)
Lemma ParseCacheControl_storable U header n :
  cache.ParseCacheControl U header = (n, true) -> 0 < n <= GoStrconv.maxInt.
Proof.
  unfold cache.ParseCacheControl.
  destruct (String.eqb header ""); [discriminate|].
  destruct (cache.noStoreLoop U _); [discriminate|].
  destruct (cache.maxAgeLoop U _) as [m|] eqn:Hm; [|discriminate].
  intros [= <-]. now apply maxAgeLoop_range in Hm.
Qed.

Lemma wrap64_small n :
  GoTime.minDuration <= n <= GoTime.maxDuration -> GoTime.wrap64 n = n.
Proof.
  unfold GoTime.wrap64, GoTime.minDuration, GoTime.maxDuration. intros H.
  rewrite Z.mod_small; lia.
Qed.

(** On a miss whose response the policy marks storable, and whose
    [max-age] in nanoseconds fits a [Duration] (at most 9223372036 seconds),
    the store ends with exactly one change: under the requested URL stands
    the entry made of the body, the origin's headers and the expiry
    [now + maxAge] seconds, whatever stood there before. *)
Theorem storable_miss_is_stored env r w url code hdr payload maxAge :
  GoHttp.QueryGet (GoHttp.Query r) "url" = url -> url <> "" ->
  (cache.Get env url w).1 = None ->
  origin env (length (fetches w)) url = GoHttp.Fetched code hdr payload ->
  cache.ParseCacheControl (unicode env) (GoHttp.Get hdr "Cache-Control")
  = (maxAge, true) ->
  maxAge * GoTime.Second <= GoTime.maxDuration ->
  let now := clock env (ticks (cache.Get env url w).2) in
  entries (server.proxy env r w).2
  = <[url := {| Body := payload; Headers := hdr;
                Expiry := now + maxAge * GoTime.Second |}]> (entries w).
Proof.
  intros Hu Hne Hmiss Horigin Hparse Hfit now. subst now.
  rewrite (proxy_miss env r w url Hu Hne Hmiss), Horigin, Hparse.
  cbn [fst snd entries withEntries].
  apply ParseCacheControl_storable in Hparse.
  rewrite wrap64_small
    by (unfold GoTime.minDuration, GoTime.Second in *; lia).
  rewrite (Get_miss_entries env url w Hmiss).
  apply insert_delete_eq.
Qed.

Lemma storable_miss_is_stored_witness :
  entries (server.proxy sample.seconds (sample.request "http://a")
             (sample.holding sample.e100)).2
  = <[ "http://a" := {| Body := sample.page;
                        Headers := {[ "Cache-Control" := ["public, max-age=300"];
                                      "Content-Type" := ["text/html"] ]};
                        Expiry := 2000000000 + 300 * GoTime.Second |} ]>
      (entries (sample.holding sample.e100)).
Proof.
  apply (storable_miss_is_stored sample.seconds (sample.request "http://a")
           (sample.holding sample.e100) "http://a" 200 _ sample.page 300).
  - reflexivity.
  - discriminate.
  - reflexivity.
  - reflexivity.
  - reflexivity.
  - vm_compute. discriminate.
Defined.

(** A miss whose response the policy does not mark storable adds nothing
    to the store. *)
Theorem unstorable_miss_is_not_stored env r w url code hdr payload n :
  GoHttp.QueryGet (GoHttp.Query r) "url" = url -> url <> "" ->
  (cache.Get env url w).1 = None ->
  origin env (length (fetches w)) url = GoHttp.Fetched code hdr payload ->
  cache.ParseCacheControl (unicode env) (GoHttp.Get hdr "Cache-Control")
  = (n, false) ->
  entries (server.proxy env r w).2 = delete url (entries w).
Proof.
  intros Hu Hne Hmiss Horigin Hparse.
  rewrite (proxy_miss env r w url Hu Hne Hmiss), Horigin, Hparse.
  cbn [fst snd entries]. now apply Get_miss_entries.
Qed.

(** C7 at a [max-age] of 9223372037 seconds.  The policy marks the
    response storable; [time.Duration(maxAge) * time.Second] wraps around, and
    the entry stored at instant 1000 expires at
    [1000 - 9223372036709551616], some 292 years earlier, where the claim has
    [1000 + 9223372037 * 10^9]. *)
Theorem storable_miss_overflow :
  cache.ParseCacheControl sample.plain "max-age=9223372037" = (9223372037, true)
  /\ Expiry <$> entries (server.proxy sample.longLived (sample.request "http://a")
                           sample.fresh).2 !! "http://a"
     = Some (1000 - 9223372036709551616)
  /\ 1000 - 9223372036709551616 < 1000 + 9223372037 * GoTime.Second.
Proof. split; [reflexivity|]. split; [reflexivity|]. vm_compute. reflexivity. Qed.

(** ** Serving a hit *)

(** *** [Seconds()] on some durations *)

(** Five minutes less a nanosecond, minus two and a half seconds, and a
    duration of [2^24] seconds less a nanosecond, from which on the sum in
    [Seconds()] can round up to the next second. *)
Example Seconds_vectors :
  GoTime.toInt (GoTime.Seconds (300 * GoTime.Second - 1)) = 299
  /\ GoTime.toInt (GoTime.Seconds (- 2500000000)) = -2
  /\ GoTime.toInt (GoTime.Seconds 0) = 0
  /\ GoTime.toInt (GoTime.Seconds (2 ^ 24 * GoTime.Second - 1)) = 2 ^ 24 - 1
  /\ GoTime.toInt (GoTime.Seconds (2 ^ 24 * GoTime.Second + 999999999)) = 2 ^ 24 + 1.
Proof. vm_compute. repeat split. Qed.

Lemma Get_hit_inv env url w e :
  (cache.Get env url w).1 = Some e ->
  entries w !! url = Some e /\ clock env (ticks w) <= Expiry e.
Proof.
  unfold cache.Get. destruct (entries w !! url) as [e'|]; [|discriminate].
  cbn. unfold GoTime.After.
  destruct (Z.ltb_spec (Expiry e') (clock env (ticks w))); cbn; [discriminate|].
  now intros [= ->].
Qed.



(** C8 at a [max-age] of one year.  The page is stored at instant 1000
    and requested again one second and one nanosecond later: the lookup hits
    with 31535998.999999999 seconds left.  [Seconds()] rounds that to the
    [float64] 31535999.0, so the header reads 31535999, where the whole
    seconds of [expiry - now] are 31535998. *)
Theorem hit_ttl_is_rounded_up :
  let stored := (server.proxy sample.oneSecondLater (sample.request "http://a")
                   sample.fresh).2 in
  let res := server.proxy sample.oneSecondLater (sample.request "http://a")
               stored in
  Expiry <$> entries stored !! "http://a" = Some (1000 + 31536000 * GoTime.Second)
  /\ clock sample.oneSecondLater (S (ticks stored)) = 1000 + 1000000001
  /\ fetches res.2 = fetches stored
  /\ GoHttp.Get (GoHttp.header res.1) "X-Proxy-Cache" = "HIT"
  /\ GoHttp.Get (GoHttp.header res.1) "X-Cache-TTL-Remaining" = "31535999"
  /\ (1000 + 31536000 * GoTime.Second - (1000 + 1000000001)) ÷ GoTime.Second
     = 31535998.
Proof. vm_compute. repeat split. Qed.

(** * Further properties of the code *)

(** ** The middleware *)

(** The key a request presents: its [X-API-Key] header when that is not
    empty, its [api_key] parameter otherwise. *)
Lemma authMiddleware_run key next r w :
  authMiddleware key next r w
  = let h := GoHttp.Get (reqHeader r) "X-API-Key" in
    let k := if decide (h = "")
             then GoHttp.QueryGet (GoHttp.Query (reqURL r)) "api_key" else h in
    if decide (k = key) then next (reqURL r) w
    else (GoHttp.Error GoHttp.newWriter "Unauthorized" StatusUnauthorized, w).
Proof.
  unfold authMiddleware. cbv zeta.
  destruct (decide (GoHttp.Get (reqHeader r) "X-API-Key" = "")) as [He|He].
  - rewrite He. cbn [String.eqb].
    destruct (String.eqb_spec
                (GoHttp.QueryGet (GoHttp.Query (reqURL r)) "api_key") key);
      case_decide; done.
  - apply String.eqb_neq in He as He'. rewrite He'.
    destruct (String.eqb_spec (GoHttp.Get (reqHeader r) "X-API-Key") key);
      case_decide; done.
Qed.

(** A request that presents another key than the server's is answered 401
    on both routes, and the handler behind the middleware does not run: no
    fetch, no reading of the clock, the store as it was.  A header that is
    present and wrong is not made good by a right [api_key] parameter. *)
Theorem wrong_key_is_unauthorized env key route r w h :
  GoHttp.Get (reqHeader r) "X-API-Key" = h ->
  (h <> "" /\ h <> key)
  \/ (h = "" /\ GoHttp.QueryGet (GoHttp.Query (reqURL r)) "api_key" <> key) ->
  newServer env key route r w
  = (GoHttp.Error GoHttp.newWriter "Unauthorized" StatusUnauthorized, w)
  /\ GoHttp.status (newServer env key route r w).1 = Some 401.
Proof.
  intros Hh Hbad.
  assert (newServer env key route r w
          = (GoHttp.Error GoHttp.newWriter "Unauthorized" StatusUnauthorized, w))
    as Hrun.
  { destruct route; cbn [newServer]; rewrite authMiddleware_run; cbv zeta;
      rewrite Hh; destruct Hbad as [[H1 H2] | [H1 H2]];
      repeat case_decide; congruence. }
  split; [exact Hrun|]. now rewrite Hrun.
Qed.

Lemma wrong_key_is_unauthorized_witness :
  newServer sample.seconds "secret" GetProxy
    (scenario.withBothKeys "guess" "secret" "http://a") sample.fresh
  = (GoHttp.Error GoHttp.newWriter "Unauthorized" StatusUnauthorized,
     sample.fresh)
  /\ GoHttp.status
       (newServer sample.seconds "secret" DeleteCache
          (scenario.keyless "http://a") (sample.holding sample.e100)).1
     = Some 401.
Proof.
  split.
  - apply (wrong_key_is_unauthorized sample.seconds "secret" GetProxy
             (scenario.withBothKeys "guess" "secret" "http://a") sample.fresh
             "guess").
    + reflexivity.
    + left. split; discriminate.
  - apply (wrong_key_is_unauthorized sample.seconds "secret" DeleteCache
             (scenario.keyless "http://a") (sample.holding sample.e100) "").
    + reflexivity.
    + right. split; [reflexivity|discriminate].
Defined.

(** A request that presents the server's key, in the header or, with no
    header, in the query, is served by the handler of its route, exactly as
    without the middleware. *)
Theorem right_key_reaches_the_handler env key r w h :
  GoHttp.Get (reqHeader r) "X-API-Key" = h ->
  (h <> "" /\ h = key)
  \/ (h = "" /\ GoHttp.QueryGet (GoHttp.Query (reqURL r)) "api_key" = key) ->
  newServer env key GetProxy r w = server.proxy env (reqURL r) w
  /\ newServer env key DeleteCache r w = server.purge (reqURL r) w.
Proof.
  intros Hh Hok.
  split; cbn [newServer]; rewrite authMiddleware_run; cbv zeta; rewrite Hh;
    destruct Hok as [[H1 H2] | [H1 H2]]; repeat case_decide; congruence.
Qed.

Lemma right_key_reaches_the_handler_witness :
  newServer sample.seconds "secret" GetProxy
    (scenario.withHeaderKey "secret" "http://a") sample.fresh
  = server.proxy sample.seconds (sample.request "http://a") sample.fresh
  /\ GoHttp.status
       (newServer sample.seconds "secret" DeleteCache
          (scenario.withQueryKey "secret" "http://a")
          (sample.holding sample.e100)).1
     = Some 204.
Proof.
  split.
  - apply (right_key_reaches_the_handler sample.seconds "secret"
             (scenario.withHeaderKey "secret" "http://a") sample.fresh "secret").
    + reflexivity.
    + left. split; [discriminate|reflexivity].
  - rewrite (proj2 (right_key_reaches_the_handler sample.seconds "secret"
                      (scenario.withQueryKey "secret" "http://a")
                      (sample.holding sample.e100) "" eq_refl
                      (or_intror (conj eq_refl eq_refl)))).
    reflexivity.
Defined.

(** A server whose key is the empty string lets through every request that
    presents no key at all. *)
Theorem empty_key_admits_keyless_requests env route r w :
  reqHeader r !! "X-Api-Key" = None ->
  GoHttp.Query (reqURL r) !! "api_key" = None ->
  newServer env "" route r w
  = match route with
    | GetProxy => server.proxy env (reqURL r) w
    | DeleteCache => server.purge (reqURL r) w
    end.
Proof.
  intros Hh Hq.
  assert (GoHttp.Get (reqHeader r) "X-API-Key" = "") as Hget.
  { unfold GoHttp.Get, GoHttp.values.
    change (GoHttp.CanonicalMIMEHeaderKey "X-API-Key") with "X-Api-Key".
    now rewrite Hh. }
  assert (GoHttp.QueryGet (GoHttp.Query (reqURL r)) "api_key" = "") as Hquery.
  { unfold GoHttp.QueryGet, GoHttp.values. now rewrite Hq. }
  destruct route; cbn [newServer]; rewrite authMiddleware_run; cbv zeta;
    rewrite Hget, Hquery; repeat case_decide; congruence.
Qed.

Lemma empty_key_admits_keyless_requests_witness :
  GoHttp.status
    (newServer sample.seconds "" DeleteCache (scenario.keyless "http://a")
       (sample.holding sample.e100)).1 = Some 204.
Proof.
  rewrite (empty_key_admits_keyless_requests sample.seconds DeleteCache
             (scenario.keyless "http://a") (sample.holding sample.e100)
             eq_refl eq_refl).
  reflexivity.
Defined.

(** ** The store *)

(** What [Get] returns as a hit is the entry the store holds under the key,
    it is not past its expiry at the reading of the clock [Get] makes, and the
    store is left as it was. *)
Theorem hit_is_stored_and_fresh env url w e :
  (cache.Get env url w).1 = Some e ->
  entries w !! url = Some e
  /\ clock env (ticks w) <= Expiry e
  /\ (cache.Get env url w).2 = tick w.
Proof.
  intros H. destruct (Get_hit_inv env url w e H) as [He Ht].
  split; [done|]. split; [done|]. now rewrite (Get_fresh env url w e He Ht).
Qed.

Lemma hit_is_stored_and_fresh_witness :
  entries (sample.holding sample.e100) !! "http://a" = Some sample.e100
  /\ clock (sample.at_ 42) (ticks (sample.holding sample.e100))
     <= Expiry sample.e100
  /\ (cache.Get (sample.at_ 42) "http://a" (sample.holding sample.e100)).2
     = tick (sample.holding sample.e100).
Proof.
  apply (hit_is_stored_and_fresh (sample.at_ 42) "http://a"
           (sample.holding sample.e100) sample.e100).
  reflexivity.
Defined.

Lemma elem_of_setsOf ops u e : (u, e) ∈ setsOf ops <-> OpSet u e ∈ ops.
Proof.
  unfold setsOf. rewrite list_elem_of_omap. split.
  - intros (op & Hin & Hop). destruct op; try discriminate.
    now injection Hop as -> ->.
  - intros Hin. now exists (OpSet u e).
Qed.

Lemma runOp_origin env op w u e :
  entries (runOp env op w).2 !! u = Some e ->
  entries w !! u = Some e \/ op = OpSet u e.
Proof.
  destruct op as [k|k e'|k]; cbn.
  - unfold bind. pose proof (Get_entries env k w) as Hg.
    destruct (cache.Get env k w) as [o w1]. cbn in *.
    destruct Hg as [-> | ->]; [now left|].
    intros [_ H]%lookup_delete_Some. now left.
  - destruct (decide (k = u)) as [->|Hne].
    + rewrite lookup_insert_eq. intros [= ->]. now right.
    + rewrite lookup_insert_ne by done. now left.
  - unfold bind, cache.Delete. destruct (entries w !! k); cbn; [|now left].
    intros [_ H]%lookup_delete_Some. now left.
Qed.

(** Whatever sequence of [Get], [Set] and [Delete] runs, every entry the
    store holds afterwards was in the store before or was passed to a [Set] of
    the sequence under that key: [Get] and [Delete] only remove. *)
Theorem entries_come_from_sets env ops : forall w u e,
  entries (runOps env ops w).2 !! u = Some e ->
  entries w !! u = Some e \/ (u, e) ∈ setsOf ops.
Proof.
  induction ops as [|op rest IH]; intros w u e; cbn [runOps].
  - now left.
  - unfold bind. destruct (runOp env op w) as [[] w1] eqn:Hop.
    intros [H | H]%IH.
    + replace w1 with (runOp env op w).2 in H by now rewrite Hop.
      apply runOp_origin in H as [H | ->]; [now left|].
      right. apply elem_of_setsOf. left.
    + right. apply elem_of_setsOf. right. now apply elem_of_setsOf.
Qed.

Lemma entries_come_from_sets_witness :
  entries sample.fresh !! "http://b" = Some sample.e100
  \/ ("http://b", sample.e100) ∈ setsOf sample.others.
Proof.
  apply (entries_come_from_sets sample.counting sample.others sample.fresh
           "http://b" sample.e100).
  reflexivity.
Defined.

(** ** What a request can touch *)

Lemma Get_ticks_le env url w : (ticks (cache.Get env url w).2 <= S (ticks w))%nat.
Proof.
  unfold cache.Get. destruct (entries w !! url); [|cbn; lia].
  cbn. destruct (GoTime.After _ _); cbn; lia.
Qed.

(** Whatever the request, the store and the origin, the handler of
    [GET /proxy] leaves the entries of every other URL as they are, fetches at
    most once and then the requested URL, reads the clock at most twice, and
    answers 200, 400 or 502. *)
Theorem proxy_footprint env r w :
  let url := GoHttp.QueryGet (GoHttp.Query r) "url" in
  let res := server.proxy env r w in
  (forall u, u <> url -> entries res.2 !! u = entries w !! u)
  /\ (fetches res.2 = fetches w \/ fetches res.2 = fetches w ++ [url])
  /\ (ticks w <= ticks res.2 <= ticks w + 2)%nat
  /\ (GoHttp.status res.1 = Some 200 \/ GoHttp.status res.1 = Some 400
      \/ GoHttp.status res.1 = Some 502).
Proof.
  intros url res. subst res.
  destruct (decide (url = "")) as [Hempty | Hne].
  { rewrite (proxy_no_url env r w Hempty). cbn [fst snd].
    split; [done|]. split; [now left|]. split; [lia|]. right. now left. }
  destruct (cache.Get env url w).1 as [e|] eqn:Hget.
  - destruct (Get_hit_inv env url w e Hget) as [He Ht].
    rewrite (proxy_hit env r w url e eq_refl Hne He Ht). cbn.
    split; [done|]. split; [now left|]. split; [lia|]. now left.
  - rewrite (proxy_miss env r w url eq_refl Hne Hget).
    pose proof (Get_miss_entries env url w Hget) as Hentries.
    pose proof (Get_ticks env url w) as Hlo.
    pose proof (Get_ticks_le env url w) as Hhi.
    assert (forall msg, GoHttp.status (GoHttp.Error GoHttp.newWriter msg
                          GoHttp.StatusBadGateway) = Some 502) as Hs by done.
    destruct (origin env (length (fetches w)) url) as [err|c h err|c hdr payload].
    + cbn [fst snd entries ticks fetches]. rewrite Hentries, Hs.
      split; [intros u Hu; now apply lookup_delete_ne|].
      split; [now right|]. split; [lia|]. right. now right.
    + cbn [fst snd entries ticks fetches]. rewrite Hentries, Hs.
      split; [intros u Hu; now apply lookup_delete_ne|].
      split; [now right|]. split; [lia|]. right. now right.
    + destruct (cache.ParseCacheControl (unicode env) (GoHttp.Get hdr "Cache-Control"))
        as [n [|]]; cbn [fst snd entries ticks fetches withEntries tick
                         GoHttp.status]; rewrite Hentries.
      * split.
        { intros u Hu. rewrite lookup_insert_ne by done.
          now apply lookup_delete_ne. }
        split; [now right|]. split; [lia|]. now left.
      * split; [intros u Hu; now apply lookup_delete_ne|].
        split; [now right|]. split; [lia|]. now left.
Qed.

(** The handler of [DELETE /cache] never fetches and never reads the clock.
    For a URL that is not empty it answers 204 exactly when the store held an
    entry of the URL, expired or not, and 404 exactly when it held none; the
    store afterwards is the store before without that entry. *)
Theorem purge_footprint r w :
  let url := GoHttp.QueryGet (GoHttp.Query r) "url" in
  let res := server.purge r w in
  fetches res.2 = fetches w
  /\ ticks res.2 = ticks w
  /\ (url <> "" ->
      (GoHttp.status res.1 = Some 204 <-> is_Some (entries w !! url))
      /\ (GoHttp.status res.1 = Some 404 <-> entries w !! url = None)
      /\ entries res.2 = delete url (entries w)).
Proof.
  intros url res. subst res.
  destruct (decide (url = "")) as [Hempty | Hne].
  { rewrite (purge_no_url r w Hempty). cbn [fst snd]. done. }
  rewrite (purge_run r w url eq_refl Hne).
  destruct (entries w !! url) as [e|] eqn:He; cbn.
  - split; [done|]. split; [done|]. intros _. split; [|split; [|done]].
    + split; [eauto|done].
    + split; discriminate.
  - split; [done|]. split; [done|]. intros _. split; [|split].
    + split; [discriminate|]. now intros [? ?].
    + done.
    + symmetry. now apply delete_id.
Qed.

Lemma purge_footprint_witness :
  (GoHttp.status (server.purge (sample.request "http://a")
                    (sample.holding sample.e100)).1 = Some 204
   <-> is_Some (entries (sample.holding sample.e100) !! "http://a"))
  /\ (GoHttp.status (server.purge (sample.request "http://a")
                       (sample.holding sample.e100)).1 = Some 404
      <-> entries (sample.holding sample.e100) !! "http://a" = None)
  /\ entries (server.purge (sample.request "http://a")
                (sample.holding sample.e100)).2
     = delete "http://a" (entries (sample.holding sample.e100)).
Proof.
  apply (proj2 (proj2 (purge_footprint (sample.request "http://a")
                         (sample.holding sample.e100)))).
  discriminate.
Defined.

(** ** Requests one after the other *)

(** A response stored on a miss is served from the store by the next
    request for the URL that arrives no later than its expiry: the reply is a
    HIT with the body the origin sent, and the origin is not asked again. *)
Theorem miss_then_hit env r w url code hdr payload maxAge :
  GoHttp.QueryGet (GoHttp.Query r) "url" = url -> url <> "" ->
  (cache.Get env url w).1 = None ->
  origin env (length (fetches w)) url = GoHttp.Fetched code hdr payload ->
  cache.ParseCacheControl (unicode env) (GoHttp.Get hdr "Cache-Control")
  = (maxAge, true) ->
  maxAge * GoTime.Second <= GoTime.maxDuration ->
  let first := server.proxy env r w in
  let storedAt := clock env (ticks (cache.Get env url w).2) in
  clock env (ticks first.2) <= storedAt + maxAge * GoTime.Second ->
  let second := server.proxy env r first.2 in
  GoHttp.Get (GoHttp.header second.1) "X-Proxy-Cache" = "HIT"
  /\ GoHttp.status second.1 = Some 200
  /\ GoHttp.body second.1 = payload
  /\ fetches second.2 = fetches w ++ [url]
  /\ entries second.2 = entries first.2.
Proof.
  intros Hu Hne Hmiss Horigin Hparse Hfit first storedAt Hsoon second.
  subst second storedAt first.
  rewrite (proxy_miss env r w url Hu Hne Hmiss), Horigin, Hparse in *.
  cbn [fst snd] in *.
  pose proof (ParseCacheControl_storable _ _ _ Hparse) as Hpos.
  rewrite wrap64_small in *
    by (unfold GoTime.minDuration, GoTime.Second in *; lia).
  match goal with
  | |- context [server.proxy env r ?w1] =>
      rewrite (proxy_hit env r w1 url
                 {| Body := payload; Headers := hdr;
                    Expiry := clock env (ticks (cache.Get env url w).2)
                              + maxAge * GoTime.Second |} Hu Hne)
  end.
  - cbn [fst snd GoHttp.header GoHttp.status GoHttp.body].
    split.
    { unfold GoHttp.Get. rewrite !values_Set.
      rewrite decide_False by discriminate. now rewrite decide_True. }
    cbn. repeat split.
  - cbn. apply lookup_insert_eq.
  - exact Hsoon.
Qed.

Lemma miss_then_hit_witness :
  let first := server.proxy sample.seconds (sample.request "http://a")
                 sample.fresh in
  let second := server.proxy sample.seconds (sample.request "http://a")
                  first.2 in
  GoHttp.Get (GoHttp.header second.1) "X-Proxy-Cache" = "HIT"
  /\ GoHttp.status second.1 = Some 200
  /\ GoHttp.body second.1 = sample.page
  /\ fetches second.2 = fetches sample.fresh ++ ["http://a"]
  /\ entries second.2 = entries first.2.
Proof.
  apply (miss_then_hit sample.seconds (sample.request "http://a") sample.fresh
           "http://a" 200
           {[ "Cache-Control" := ["public, max-age=300"];
              "Content-Type" := ["text/html"] ]} sample.page 300).
  - reflexivity.
  - discriminate.
  - reflexivity.
  - reflexivity.
  - reflexivity.
  - vm_compute. discriminate.
  - vm_compute. discriminate.
Defined.

(** After a purge of a URL the next request for it goes to the origin,
    whether or not the store held an entry: the reply is no HIT and the fetch
    is recorded. *)
Theorem purge_then_fetch env r w url :
  GoHttp.QueryGet (GoHttp.Query r) "url" = url -> url <> "" ->
  let purged := (server.purge r w).2 in
  let res := server.proxy env r purged in
  entries purged !! url = None
  /\ fetches res.2 = fetches w ++ [url]
  /\ GoHttp.Get (GoHttp.header res.1) "X-Proxy-Cache" <> "HIT".
Proof.
  intros Hu Hne purged res.
  assert (entries purged !! url = None /\ fetches purged = fetches w)
    as [Hgone Hf].
  { subst purged. rewrite (purge_run r w url Hu Hne).
    destruct (entries w !! url) eqn:He; cbn; [|done].
    split; [apply lookup_delete_eq|done]. }
  split; [exact Hgone|]. subst res.
  assert ((cache.Get env url purged).1 = None) as Hmiss
    by now rewrite (Get_absent env url purged Hgone).
  rewrite (proxy_miss env r purged url Hu Hne Hmiss), Hf.
  destruct (origin env (length (fetches w)) url) as [err|c h err|c hdr payload];
    [split; [done|discriminate] | split; [done|discriminate] |].
  cbn [fst GoHttp.header]. split.
  - now destruct (cache.ParseCacheControl _ _) as [n [|]].
  - unfold GoHttp.Get. rewrite values_Set. now rewrite decide_True.
Qed.

Lemma purge_then_fetch_witness :
  let purged := (server.purge (sample.request "http://a")
                   (sample.holding sample.e100)).2 in
  let res := server.proxy sample.seconds (sample.request "http://a") purged in
  entries purged !! "http://a" = None
  /\ fetches res.2 = fetches (sample.holding sample.e100) ++ ["http://a"]
  /\ GoHttp.Get (GoHttp.header res.1) "X-Proxy-Cache" <> "HIT".
Proof.
  apply (purge_then_fetch sample.seconds (sample.request "http://a")
           (sample.holding sample.e100) "http://a").
  - reflexivity.
  - discriminate.
Defined.

(** When nothing the origin answers for a URL is stored (the fetch fails,
    or the policy refuses: [no-store], no positive [max-age]), and the store
    holds no entry of it, every request for the URL is fetched from the
    origin: after [n] requests there are [n] more fetches, no reply is a HIT
    and the store is as before. *)
Theorem unstored_url_is_fetched_every_time env url rs :
  url <> "" ->
  Forall (fun r => GoHttp.QueryGet (GoHttp.Query r) "url" = url) rs ->
  (forall i, stored env (origin env i url) = false) ->
  forall w,
    entries w !! url = None ->
    let res := serveAll env rs w in
    fetches res.2 = fetches w ++ replicate (length rs) url
    /\ entries res.2 = entries w
    /\ Forall (fun reply =>
                 GoHttp.Get (GoHttp.header reply) "X-Proxy-Cache" <> "HIT") res.1.
Proof.
  intros Hne Hrs Hnever. induction Hrs as [|r rest Hr _ IH]; intros w Hnone res.
  { subst res. cbn. rewrite app_nil_r. done. }
  assert ((cache.Get env url w).1 = None) as Hmiss
    by now rewrite (Get_absent env url w Hnone).
  pose proof (proxy_miss env r w url Hr Hne Hmiss) as Hrun.
  rewrite (Get_absent env url w Hnone) in Hrun. cbn [snd] in Hrun.
  specialize (Hnever (length (fetches w))). unfold stored in Hnever.
  set (w2 := {| entries := entries w; ticks := ticks w;
                fetches := fetches w ++ [url] |}) in *.
  assert (exists reply, server.proxy env r w = (reply, w2)
            /\ GoHttp.Get (GoHttp.header reply) "X-Proxy-Cache" <> "HIT")
    as (reply & Hproxy & Hreply).
  { rewrite Hrun.
    destruct (origin env (length (fetches w)) url) as [err|c h err|c hdr payload].
    - eexists. split; [reflexivity|discriminate].
    - eexists. split; [reflexivity|discriminate].
    - rewrite Hnever. eexists. split; [reflexivity|].
      cbn [GoHttp.header]. unfold GoHttp.Get. rewrite values_Set.
      now rewrite decide_True. }
  specialize (IH w2 Hnone). cbv zeta in IH. destruct IH as (IH1 & IH2 & IH3).
  subst res. cbn [serveAll]. unfold bind. rewrite Hproxy.
  destruct (serveAll env rest w2) as [replies w3]. cbn in *.
  rewrite IH1, <- app_assoc. split; [done|]. split; [done|].
  now constructor.
Qed.

Lemma unstored_url_is_fetched_every_time_witness :
  let res := serveAll scenario.private
               [sample.request "http://a"; sample.request "http://a";
                sample.request "http://a"] sample.fresh in
  fetches res.2 = fetches sample.fresh ++ replicate 3 "http://a"
  /\ entries res.2 = entries sample.fresh
  /\ Forall (fun reply =>
               GoHttp.Get (GoHttp.header reply) "X-Proxy-Cache" <> "HIT") res.1.
Proof.
  apply (unstored_url_is_fetched_every_time scenario.private "http://a"
           [sample.request "http://a"; sample.request "http://a";
            sample.request "http://a"]).
  - discriminate.
  - repeat constructor.
  - intros i. reflexivity.
  - reflexivity.
Defined.

(** ** More on the policy *)

(** [ParseCacheControl] returns either [(n, true)] with [n] positive and
    within [int], or [(0, false)]: a TTL never comes with a refusal to store,
    and what is stored never has a TTL of zero or less. *)
Theorem ParseCacheControl_result U header :
  let p := cache.ParseCacheControl U header in
  (p.2 = true /\ 0 < p.1 <= GoStrconv.maxInt) \/ p = (0, false).
Proof.
  intros p. subst p. unfold cache.ParseCacheControl.
  destruct (String.eqb header ""); [now right|].
  destruct (cache.noStoreLoop U _); [now right|].
  destruct (cache.maxAgeLoop U _) as [m|] eqn:Hm; [|now right].
  left. split; [done|]. now apply maxAgeLoop_range in Hm.
Qed.

Lemma lowerByte_facts c :
  Ascii.eqb (GoStrings.lowerByte c) "," = Ascii.eqb c ","
  /\ GoStrings.lowerByte (GoStrings.lowerByte c) = GoStrings.lowerByte c.
Proof. destruct c as [[] [] [] [] [] [] [] []]; vm_compute; done. Qed.

Lemma Split_lower h :
  GoStrings.Split (GoStrings.mapBytes GoStrings.lowerByte h) ","
  = GoStrings.mapBytes GoStrings.lowerByte <$> GoStrings.Split h ",".
Proof.
  induction h as [|c h IH]; [done|].
  cbn [GoStrings.mapBytes GoStrings.Split]. rewrite IH.
  destruct (lowerByte_facts c) as [-> _].
  destruct (GoStrings.Split h ",") as [|d ds]; [done|]. cbn.
  now destruct (Ascii.eqb c ",").
Qed.

Lemma Split_isASCII h :
  GoStrings.isASCII h = true ->
  Forall (fun d => GoStrings.isASCII d = true) (GoStrings.Split h ",").
Proof.
  induction h as [|c h IH]; [repeat constructor|].
  cbn [GoStrings.isASCII GoStrings.Split]. intros [Hc Hh]%andb_prop.
  specialize (IH Hh).
  destruct (GoStrings.Split h ",") as [|d ds]; [repeat constructor; cbn; now rewrite Hc|].
  apply Forall_cons in IH as [Hd Hds].
  destruct (Ascii.eqb c ","); repeat constructor; try done.
  cbn. now rewrite Hc, Hd.
Qed.

Lemma mapBytes_lower_idem d :
  GoStrings.mapBytes GoStrings.lowerByte
    (GoStrings.mapBytes GoStrings.lowerByte d)
  = GoStrings.mapBytes GoStrings.lowerByte d.
Proof.
  induction d as [|c d IH]; [done|]. cbn. rewrite IH.
  now destruct (lowerByte_facts c) as [_ ->].
Qed.

Lemma ToLower_lower U d :
  GoStrings.isASCII d = true ->
  GoStrings.ToLower U (GoStrings.mapBytes GoStrings.lowerByte d)
  = GoStrings.ToLower U d.
Proof.
  intros Hd. unfold GoStrings.ToLower.
  now rewrite (isASCII_lower d Hd), Hd, mapBytes_lower_idem.
Qed.

Lemma loops_lower U ds :
  Forall (fun d => GoStrings.isASCII d = true) ds ->
  cache.noStoreLoop U (GoStrings.mapBytes GoStrings.lowerByte <$> ds)
  = cache.noStoreLoop U ds
  /\ cache.maxAgeLoop U (GoStrings.mapBytes GoStrings.lowerByte <$> ds)
     = cache.maxAgeLoop U ds.
Proof.
  induction 1 as [|d ds Hd _ [IH1 IH2]]; [done|].
  cbn. rewrite (ToLower_lower U d Hd), IH1, IH2. done.
Qed.

Lemma mapBytes_empty f h : GoStrings.mapBytes f h = "" <-> h = "".
Proof. now destruct h. Qed.

(** The policy does not look at letter case: a header of ASCII bytes and
    the same header lower-cased get the same result. *)
Theorem ParseCacheControl_ignores_case U header :
  GoStrings.isASCII header = true ->
  cache.ParseCacheControl U (GoStrings.ToLower U header)
  = cache.ParseCacheControl U header.
Proof.
  intros Hh. unfold GoStrings.ToLower. rewrite Hh.
  unfold cache.ParseCacheControl.
  destruct (String.eqb_spec header "") as [-> | Hne]; [done|].
  destruct (String.eqb_spec (GoStrings.mapBytes GoStrings.lowerByte header) "")
    as [He | _]; [now apply mapBytes_empty in He|].
  rewrite Split_lower.
  destruct (loops_lower U _ (Split_isASCII header Hh)) as [-> ->]. done.
Qed.

Lemma ParseCacheControl_ignores_case_witness :
  cache.ParseCacheControl sample.plain
    (GoStrings.ToLower sample.plain "Public, MAX-AGE=120")
  = cache.ParseCacheControl sample.plain "Public, MAX-AGE=120".
Proof.
  apply (ParseCacheControl_ignores_case sample.plain "Public, MAX-AGE=120").
  reflexivity.
Defined.

(** ** More on storing *)

(** Of several [Cache-Control] lines of a response the handler reads the
    first only: when that one is storable the response is stored, whatever the
    later lines say. *)
Theorem first_cache_control_line_decides env r w url code hdr payload v rest n :
  GoHttp.QueryGet (GoHttp.Query r) "url" = url -> url <> "" ->
  (cache.Get env url w).1 = None ->
  origin env (length (fetches w)) url = GoHttp.Fetched code hdr payload ->
  hdr !! "Cache-Control" = Some (v :: rest) ->
  cache.ParseCacheControl (unicode env) v = (n, true) ->
  exists e, entries (server.proxy env r w).2 !! url = Some e
            /\ Body e = payload /\ Headers e = hdr.
Proof.
  intros Hu Hne Hmiss Horigin Hcc Hparse.
  rewrite (proxy_miss env r w url Hu Hne Hmiss), Horigin.
  assert (GoHttp.Get hdr "Cache-Control" = v) as ->.
  { unfold GoHttp.Get, GoHttp.values.
    change (GoHttp.CanonicalMIMEHeaderKey "Cache-Control") with "Cache-Control".
    now rewrite Hcc. }
  rewrite Hparse. cbn [fst snd entries withEntries].
  eexists. split; [apply lookup_insert_eq|]. done.
Qed.

Lemma first_cache_control_line_decides_witness :
  exists e, entries (server.proxy scenario.contradictory
                       (sample.request "http://a") sample.fresh).2
              !! "http://a" = Some e
            /\ Body e = sample.page
            /\ Headers e = {[ "Cache-Control" := ["max-age=60"; "no-store"] ]}.
Proof.
  apply (first_cache_control_line_decides scenario.contradictory
           (sample.request "http://a") sample.fresh "http://a" 200
           {[ "Cache-Control" := ["max-age=60"; "no-store"] ]} sample.page
           "max-age=60" ["no-store"] 60).
  - reflexivity.
  - discriminate.
  - reflexivity.
  - reflexivity.
  - reflexivity.
  - reflexivity.
Defined.

Lemma unstorable_miss_is_not_stored_witness :
  entries (server.proxy scenario.private (sample.request "http://a")
             (sample.holding sample.e100)).2
  = delete "http://a" (entries (sample.holding sample.e100)).
Proof.
  apply (unstorable_miss_is_not_stored scenario.private
           (sample.request "http://a") (sample.holding sample.e100)
           "http://a" 200 {[ "Cache-Control" := ["no-store, max-age=300"] ]}
           sample.page 0).
  - reflexivity.
  - discriminate.
  - reflexivity.
  - reflexivity.
  - reflexivity.
Defined.

(** ** More on the headers of a reply *)

Lemma copied_exact_witness :
  GoHttp.values (server.addAll (rangeOf sample.counting sample.html) ∅)
    "Content-Type"
  = GoHttp.values sample.html "Content-Type".
Proof.
  apply (copied_exact sample.counting sample.html).
  intros k [vals Hk]. unfold sample.html in Hk.
  apply lookup_singleton_Some in Hk as [<- _]. reflexivity.
Defined.

(** The [X-Proxy-Cache] header of a reply tells the truth, whatever the
    origin puts in a header of that name: it reads HIT exactly when the reply
    was served from the store, and MISS exactly when it was fetched from the
    origin; a reply that is an error has neither. *)
Theorem cache_status_is_truthful env r w :
  let url := GoHttp.QueryGet (GoHttp.Query r) "url" in
  let reply := (server.proxy env r w).1 in
  (GoHttp.Get (GoHttp.header reply) "X-Proxy-Cache" = "HIT"
   <-> url <> "" /\ is_Some (cache.Get env url w).1)
  /\ (GoHttp.Get (GoHttp.header reply) "X-Proxy-Cache" = "MISS"
      <-> url <> "" /\ (cache.Get env url w).1 = None
          /\ exists code hdr payload,
               origin env (length (fetches w)) url
               = GoHttp.Fetched code hdr payload).
Proof.
  intros url reply. subst reply.
  assert (forall msg code,
            GoHttp.Get (GoHttp.header (GoHttp.Error GoHttp.newWriter msg code))
              "X-Proxy-Cache" = "") as Herr by done.
  destruct (decide (url = "")) as [Hempty | Hne].
  { rewrite (proxy_no_url env r w Hempty). cbn [fst]. rewrite Herr.
    split; (split; [discriminate|]); now intros [? _]. }
  destruct (cache.Get env url w).1 as [e|] eqn:Hget.
  - destruct (Get_hit_inv env url w e Hget) as [He Ht].
    rewrite (proxy_hit env r w url e eq_refl Hne He Ht).
    cbn [fst GoHttp.header].
    assert (GoHttp.Get
              (GoHttp.Set_
                 (GoHttp.Set_ (server.addAll (rangeOf env (Headers e)) ∅)
                    "X-Proxy-Cache" "HIT") "X-Cache-TTL-Remaining"
                 (GoStrconv.Itoa
                    (GoTime.toInt
                       (GoTime.Seconds
                          (GoTime.Sub (Expiry e) (clock env (S (ticks w))))))))
              "X-Proxy-Cache" = "HIT") as ->.
    { unfold GoHttp.Get. rewrite !values_Set.
      rewrite decide_False by discriminate. now rewrite decide_True. }
    split; [split; [eauto|done]|].
    split; [discriminate|]. now intros (_ & ? & _).
  - rewrite (proxy_miss env r w url eq_refl Hne Hget).
    destruct (origin env (length (fetches w)) url) as [err|c h err|c hdr payload];
      cbn [fst].
    + rewrite Herr. split; (split; [discriminate|]).
      * now intros [_ [? ?]].
      * now intros (_ & _ & ? & ? & ? & ?).
    + rewrite Herr. split; (split; [discriminate|]).
      * now intros [_ [? ?]].
      * now intros (_ & _ & ? & ? & ? & ?).
    + cbn [GoHttp.header].
      assert (GoHttp.Get
                (GoHttp.Set_ (server.addAll (rangeOf env hdr) ∅)
                   "X-Proxy-Cache" "MISS") "X-Proxy-Cache" = "MISS") as ->.
      { unfold GoHttp.Get. rewrite values_Set. now rewrite decide_True. }
      split; [split; [discriminate|now intros [_ [? ?]]]|].
      split; [eauto 10|done].
Qed.
